(** * terraform-mcp-server: the policy_details tool handler and the e2e harness

    A shallow embedding of [pkg/tools/policy_details.go] and of
    [e2e/e2e_test.go].  Go values are modelled as they are in the source:
    a value of interface type [error] is an [option] ([None] is [nil]), a
    pointer result is an [option], a function returning [(x, err)] returns a
    pair.  Code that talks to the outside (the registry, docker, the health
    endpoint, the protocol client) is written against an explicit interface
    and records what it does in a trace. *)

From Stdlib Require Import ZArith Lia Ascii String List.
From stdpp Require Import base option list strings pretty gmap.

Local Open Scope string_scope.
Set Warnings "-register-all".

(** ** Go data *)

Module Go.

(** A non-nil [error]: either a leaf with its text, or a wrapped error
    ([fmt.Errorf] with a context).  A Go value of type [error] is an
    [option error]. *)
Inductive error : Type :=
| Err (msg : string)
| Wrap (context : string) (cause : option error).

(** [err.Error()], as [%v] prints it. *)
Fixpoint Error (e : error) : string :=
  match e with
  | Err msg => msg
  | Wrap context None => context
  | Wrap context (Some c) => context +:+ ": " +:+ Error c
  end.

(** A value of type [any] as it arrives in a tool request. *)
Inductive value : Type :=
| VNil
| VBool (b : bool)
| VNumber (n : Z)
| VString (s : string)
| VList (l : list value).

Definition dquote : string := String (ascii_of_nat 34) EmptyString.
Definition newline : string := String (ascii_of_nat 10) EmptyString.
Definition backtick : string := String (ascii_of_nat 96) EmptyString.

(** The slice expression [s[:n]] on a string: it panics when [n] exceeds
    [len(s)]; [None] is the panic. *)
Definition slice_to (n : nat) (s : string) : option string :=
  if (n <=? String.length s)%nat then Some (substring 0 n s) else None.

(** [strings.Contains]. *)
Fixpoint Contains (s sub : string) : bool :=
  if String.prefix sub s then true
  else match s with
       | EmptyString => false
       | String _ s' => Contains s' sub
       end.

End Go.

(** ** mcp-go data *)

Module mcp.
Import Go.

(** The kinds of content item of a tool result. *)
Inductive Content : Type :=
| TextContent (Text : string)
| ImageContent (Data MIMEType : string)
| AudioContent (Data MIMEType : string)
| EmbeddedResource (URI : string).

Record CallToolResult : Type := {
  Content_ : list Content;
  IsError : bool
}.

Definition NewToolResultText (text : string) : CallToolResult :=
  {| Content_ := [TextContent text]; IsError := false |}.

(** [request.Params]: the tool name and its arguments. *)
Record CallToolRequest : Type := {
  Name : string;
Arguments : gmap string value
}.

(** [CallToolRequest.RequireString]: the argument must be present and a
    string. *)
Definition RequireString (r : CallToolRequest) (key : string)
  : string * option error :=
  match Arguments r !! key with
  | Some (VString str) => (str, None)
  | Some _ =>
      (EmptyString, Some (Err ("argument " +:+ dquote +:+ key +:+ dquote +:+ " is not a string")))
  | None =>
      (EmptyString, Some (Err ("required argument " +:+ dquote +:+ key +:+ dquote +:+ " not found")))
  end.

Record Implementation : Type := {
  ImplName : string;
  Version : string
}.

Record InitializeRequest : Type := {
  ProtocolVersion : string;
  ClientInfo : Implementation
}.

Record InitializeResult : Type := {
  ServerInfo : Implementation
}.

End mcp.

(** ** pkg/client and pkg/utils: what the handler uses of them *)

Module client.

(** [Included[i].Attributes] of a policy details document. *)
Record PolicyAttributes : Type := {
  Name : string;
  Shasum : string
}.

Record PolicyIncluded : Type := {
  Type_ : string;
  Attributes : PolicyAttributes
}.

(** [TerraformPolicyDetails]: [Readme] is [Data.Attributes.Readme]. *)
Record TerraformPolicyDetails : Type := {
  Readme : string;
  Included : list PolicyIncluded
}.

End client.

(** ** pkg/tools/policy_details.go *)

Module tools.
Import Go mcp.

(** What the handler does to the outside, in order. *)
Inductive event : Type :=
| LogError (msg : string)
| RegistryCall (method uri version : string).

Definition is_RegistryCall (e : event) : bool :=
  match e with RegistryCall _ _ _ => true | LogError _ => false end.

(** The collaborators of the handler: the registry client, the JSON
    decoder and the readme extraction of [pkg/utils]. *)
Class Registry : Type := {
  SendRegistryCall : string -> string -> string -> string * option error;
  json_Unmarshal : string -> client.TerraformPolicyDetails * option error;
  ExtractReadme : string -> string
}.

(** Modelled from the spec: [utils.LogAndReturnError] of [pkg/utils] is not
    among the sources.  The spec's propagation policy is that handlers
    always return a descriptive error string alongside the error value: the
    call logs the context and returns an error that carries the context
    and the underlying error value ([nil] included). *)
Definition LogAndReturnError (context : string) (err : option error)
  : option error * list event :=
  let e := Wrap context err in
  (Some e, [LogError (Error e)]).

Section Handler.
Context `{Registry}.

(** The [module] block appended to [moduleList] for one policy module. *)
Definition moduleBlock (terraformPolicyID : string) (a : client.PolicyAttributes) : string :=
  newline +:+ "module " +:+ dquote +:+ client.Name a +:+ dquote +:+ " {" +:+ newline
  +:+ "source = " +:+ dquote +:+ "https://registry.terraform.io/v2" +:+ terraformPolicyID
  +:+ "/policy-module/" +:+ client.Name a +:+ ".sentinel?checksum=sha256:"
  +:+ client.Shasum a +:+ dquote +:+ newline
  +:+ "}" +:+ newline.

Definition policyEntry (a : client.PolicyAttributes) : string :=
  "- POLICY_NAME: " +:+ client.Name a +:+ newline
  +:+ "- POLICY_CHECKSUM: sha256:" +:+ client.Shasum a +:+ newline
  +:+ newline +:+ "---" +:+ newline.

(** The loop over [policyDetails.Included]; the state is
    [(policyList, moduleList)]. *)
Definition includedStep (terraformPolicyID : string) (acc : string * string)
    (policy : client.PolicyIncluded) : string * string :=
  let '(policyList, moduleList) := acc in
  let moduleList :=
    if String.eqb (client.Type_ policy) "policy-modules"
    then moduleList +:+ moduleBlock terraformPolicyID (client.Attributes policy)
    else moduleList in
  let policyList :=
    if String.eqb (client.Type_ policy) "policies"
    then policyList +:+ policyEntry (client.Attributes policy)
    else policyList in
  (policyList, moduleList).

Definition hclTemplate (moduleList terraformPolicyID : string) : string :=
  newline +:+ moduleList +:+ newline
  +:+ "policy " +:+ dquote +:+ "<<POLICY_NAME>>" +:+ dquote +:+ " {" +:+ newline
  +:+ "source = " +:+ dquote +:+ "https://registry.terraform.io/v2" +:+ terraformPolicyID
  +:+ "/policy/<<POLICY_NAME>>.sentinel?checksum=<<POLICY_CHECKSUM>>" +:+ dquote +:+ newline
  +:+ "enforcement_level = " +:+ dquote +:+ "advisory" +:+ dquote +:+ newline
  +:+ "}" +:+ newline.

(** The text built in the [strings.Builder]. *)
Definition policyData (terraformPolicyID : string)
    (policyDetails : client.TerraformPolicyDetails) : string :=
  let readme := ExtractReadme (client.Readme policyDetails) in
  let '(policyList, moduleList) :=
    fold_left (includedStep terraformPolicyID) (client.Included policyDetails)
              (EmptyString, EmptyString) in
  "## Policy details about " +:+ terraformPolicyID +:+ " " +:+ newline +:+ newline +:+ readme
  +:+ "---" +:+ newline
  +:+ "## Usage" +:+ newline +:+ newline
  +:+ "Generate the content for a HashiCorp Configuration Language (HCL) file named policies.hcl. This file should define a set of policies. For each policy provided, create a distinct policy block using the following template." +:+ newline
  +:+ newline +:+ backtick +:+ backtick +:+ backtick +:+ "hcl" +:+ newline
  +:+ hclTemplate moduleList terraformPolicyID
  +:+ newline +:+ backtick +:+ backtick +:+ backtick +:+ newline
  +:+ "Available policies with SHA for " +:+ terraformPolicyID +:+ " are: " +:+ newline +:+ newline
  +:+ policyList.

(** [getPolicyDetailsHandler]: the returned pair [(result, err)] and the
    trace of what was logged and called. *)
Definition getPolicyDetailsHandler (request : CallToolRequest)
  : (option CallToolResult * option error) * list event :=
  let '(terraformPolicyID, err) := RequireString request "terraform_policy_id" in
  match err with
  | Some _ =>
      let '(e, tr) := LogAndReturnError
        "terraform_policy_id is required and must be a string, it is fetched by running the search_policies tool" err in
      ((None, e), tr)
  | None =>
      if String.eqb terraformPolicyID EmptyString then
        let '(e, tr) := LogAndReturnError
          "terraform_policy_id cannot be empty, it is fetched by running the search_policies tool" None in
        ((None, e), tr)
      else
        let uri := terraformPolicyID +:+ "?include=policies,policy-modules,policy-library" in
        let '(policyResp, err) := SendRegistryCall "GET" uri "v2" in
        let called := [RegistryCall "GET" uri "v2"] in
        match err with
        | Some _ =>
            let '(e, tr) := LogAndReturnError
              "Failed to fetch policy details: registry API did not return a successful response" err in
            ((None, e), (called ++ tr)%list)
        | None =>
            let '(policyDetails, err) := json_Unmarshal policyResp in
            match err with
            | Some _ =>
                let '(e, tr) := LogAndReturnError
                  ("error unmarshalling policy details for " +:+ terraformPolicyID) err in
                ((None, e), (called ++ tr)%list)
            | None =>
                ((Some (NewToolResultText (policyData terraformPolicyID policyDetails)), None),
                 called)
            end
        end
  end.

End Handler.

End tools.

(** ** e2e/e2e_test.go: the outside world and the test monad *)

Module e2e.
Import Go mcp.

(** [exec.Cmd]: the argument vector ([Args[0]] is the program), the working
    directory and what is fed to standard input. *)
Record Cmd : Type := {
  Args : list string;
  Dir : string;
  Stdin : string
}.

(** [exec.Command(name, arg...)]. *)
Definition Command (name : string) (arg : list string) : Cmd :=
  {| Args := name :: arg; Dir := EmptyString; Stdin := EmptyString |}.

Record Response : Type := {
  StatusCode : Z
}.

(** What [http.Client.Get] returns.  net/http returns a non-nil response
    whenever the error is nil; with an error the response is usually nil
    (it is non-nil when a redirect check fails). *)
Inductive GetResult : Type :=
| GetResponse (resp : Response)
| GetError (resp : option Response) (err : error).

Definition get_resp (r : GetResult) : option Response :=
  match r with GetResponse resp => Some resp | GetError resp _ => resp end.

Definition get_err (r : GetResult) : option error :=
  match r with GetResponse _ => None | GetError _ err => Some err end.

(** The two implementations of the [mcpClient.MCPClient] interface the
    harness constructs. *)
Inductive MCPClient : Type :=
| StdioMCPClient (command : string) (env args : list string)
| StreamableHttpClient (baseURL : string).

(** One row of a tool table (the tables are declared next to the test
    file). *)
Record TestCase : Type := {
  TestName : string;
  TestDescription : string;
  TestPayload : gmap string value;
  TestShouldFail : bool;
  TestContentType : string
}.

(** The tables and constants the test file uses and does not declare. *)
Class Fixtures : Type := {
  providerTestCases : list TestCase;
  providerDocsTestCases : list TestCase;
  searchModulesTestCases : list TestCase;
  moduleDetailsTestCases : list TestCase;
  CONST_TYPE_RESOURCE : string;
  CONST_TYPE_DATA_SOURCE : string;
  CONST_TYPE_GUIDES : string;
  CONST_TYPE_FUNCTIONS : string;
  LATEST_PROTOCOL_VERSION : string
}.

(** Everything outside the test process: the environment, the commands it
    runs, the health endpoint, the passing of time and the protocol
    clients.  Each operation answers from the state of the world and moves
    it. *)
Class World (W : Type) : Type := {
  environ : W -> gmap string string;
  exec : Cmd -> W -> (string * option error) * W;
  http_Get : string -> W -> GetResult * W;
  time_Sleep : nat -> W -> W;
  NewStdioMCPClient :
    string -> list string -> list string -> W -> (option MCPClient * option error) * W;
  NewStreamableHttpClient : string -> W -> (option MCPClient * option error) * W;
  Initialize : MCPClient -> InitializeRequest -> W -> (option InitializeResult * option error) * W;
  CallTool : MCPClient -> CallToolRequest -> W -> (option CallToolResult * option error) * W;
  Close : MCPClient -> W -> W
}.

(** What the test process does, in order. *)
Inductive event : Type :=
| EExec (c : Cmd)
| EGet (url : string)
| EBodyClose
| ESleep (seconds : nat)
| ELog (msg : string)
| EError (msg : string)
| EPrint (msg : string)
| ENewStdioMCPClient (command : string) (env args : list string)
| ENewStreamableHttpClient (baseURL : string)
| EInitialize (c : MCPClient) (request : InitializeRequest)
| ECallTool (c : MCPClient) (request : CallToolRequest)
| EClose (c : MCPClient)
| ERun (name : string)
| EExit (code : Z).

(** The closures the file registers with [t.Cleanup]: the one of
    [createHTTPClient], which captures the container identifier, and the
    one of [TestE2E]. *)
Inductive cleanup_fn : Type :=
| stopContainer_cleanup (containerID : string)
| cleanupAllTestContainers_cleanup.

(** The [cleanup] closure a client factory returns: the one of
    [createStdioClient] closes the client, the one of [createHTTPClient]
    closes it when it is not nil. *)
Inductive cleanup_closure : Type :=
| stdio_cleanup (client : option MCPClient)
| http_cleanup (client : option MCPClient).

(** How a piece of test code ends: it returns; it stops its test by
    [t.FailNow] ([runtime.Goexit]: deferred calls and cleanups still run);
    it panics in its own goroutine; the process is going down because a
    sub-test panicked; or the process is gone by [os.Exit]. *)
Inductive outcome (A : Type) : Type :=
| Returned (a : A)
| FailNow
| Panic (msg : string)
| Crashed
| Exited (code : Z).
Arguments Returned {A} a.
Arguments FailNow {A}.
Arguments Panic {A} msg.
Arguments Crashed {A}.
Arguments Exited {A} code.

(** The state of a running test [t]: the world, the cleanups registered on
    [t] (last registered first) and whether [t] is marked failed. *)
Record T (W : Type) : Type := mkT {
  world : W;
  cleanups : list cleanup_fn;
  failed : bool
}.
Arguments mkT {W} world cleanups failed.
Arguments world {W} t.
Arguments cleanups {W} t.
Arguments failed {W} t.

Record result (W A : Type) : Type := mkResult {
  out : outcome A;
  st : T W;
  events : list event
}.
Arguments mkResult {W A} out st events.
Arguments out {W A} r.
Arguments st {W A} r.
Arguments events {W A} r.

Definition test (W A : Type) : Type := T W -> result W A.

Definition cast_outcome {A B : Type} (o : outcome A) (default : outcome B) : outcome B :=
  match o with
  | Returned _ => default
  | FailNow => FailNow
  | Panic msg => Panic msg
  | Crashed => Crashed
  | Exited code => Exited code
  end.

Definition test_ret {W A : Type} (a : A) : test W A :=
  fun s => mkResult (Returned a) s [].

Definition test_bind {W A B : Type} (k : A -> test W B) (m : test W A) : test W B :=
  fun s =>
    let r := m s in
    match out r with
    | Returned a =>
        let r' := k a (st r) in
        mkResult (out r') (st r') (events r ++ events r')%list
    | o => mkResult (cast_outcome o Crashed) (st r) (events r)
    end.

#[global] Instance test_mret {W : Type} : MRet (test W) := @test_ret W.
#[global] Instance test_mbind {W : Type} : MBind (test W) := @test_bind W.


Section Harness.
Context {W : Type} `{!World W} `{!Fixtures}.

(** *** testing.T, testify and the process *)

Definition emit (e : event) : test W unit :=
  fun s => mkResult (Returned tt) s [e].

(** A call into the world. *)
Definition call {A : Type} (f : W -> A * W) : test W A :=
  fun s => let '(a, w) := f (world s) in
           mkResult (Returned a) (mkT w (cleanups s) (failed s)) [].

Definition t_Log (msg : string) : test W unit := emit (ELog msg).

(** [t.FailNow]: marks the test failed and stops its goroutine. *)
Definition t_FailNow {A : Type} : test W A :=
  fun s => mkResult FailNow (mkT (world s) (cleanups s) true) [].

(** [t.Fatal] and [t.Fatalf]: log, then [FailNow]. *)
Definition t_Fatal {A : Type} (msg : string) : test W A :=
  t_Log msg;; t_FailNow.

(** [os.Exit]: the process ends at once; no deferred call and no cleanup
    runs. *)
Definition os_Exit {A : Type} (code : Z) : test W A :=
  fun s => mkResult (Exited code) s [EExit code].

(** [log.Fatalf]: print, then [os.Exit(1)]. *)
Definition log_Fatalf {A : Type} (msg : string) : test W A :=
  emit (EPrint msg);; os_Exit 1.

Definition panic {A : Type} (msg : string) : test W A :=
  fun s => mkResult (Panic msg) s [].

(** [t.Cleanup(f)]. *)
Definition t_Cleanup (f : cleanup_fn) : test W unit :=
  fun s => mkResult (Returned tt) (mkT (world s) (f :: cleanups s) (failed s)) [].

(** A failed [require] assertion reports and calls [t.FailNow]. *)
Definition require_fail {A : Type} (msg : string) : test W A :=
  emit (EError msg);; t_FailNow.

Definition require_NoError (err : option error) (msg : string) : test W unit :=
  match err with
  | None => mret tt
  | Some e => require_fail (msg +:+ ": " +:+ Error e)
  end.

Definition require_Error (err : option error) (msg : string) : test W unit :=
  match err with
  | Some _ => mret tt
  | None => require_fail msg
  end.

Definition require_True (b : bool) (msg : string) : test W unit :=
  if b then mret tt else require_fail msg.

Definition require_False (b : bool) (msg : string) : test W unit :=
  if b then require_fail msg else mret tt.

Definition require_Len {A : Type} (l : list A) (n : nat) (msg : string) : test W unit :=
  if (length l =? n)%nat then mret tt else require_fail msg.

Definition require_Equal (expected actual : string) : test W unit :=
  if String.eqb expected actual then mret tt
  else require_fail ("Not equal: expected " +:+ expected +:+ ", actual " +:+ actual).

Definition require_Contains (s contains msg : string) : test W unit :=
  if Contains s contains then mret tt else require_fail msg.

Definition require_NotContains (s contains msg : string) : test W unit :=
  if Contains s contains then require_fail msg else mret tt.

(** [cmd.Run], [cmd.Output] and [cmd.CombinedOutput]. *)
Definition run_cmd (c : Cmd) : test W (string * option error) :=
  emit (EExec c);; call (exec c).

(** [os.Getenv]: the empty string when the variable is not set. *)
Definition os_Getenv (key : string) : test W string :=
  fun s => mkResult (Returned (default EmptyString (environ (world s) !! key))) s [].

(** [defer d()] in front of [body]: the deferred call runs when [body]
    returns, stops by [FailNow] or panics, not when the process is going
    down. *)
Definition with_defer {A : Type} (d : test W unit) (body : test W A) : test W A :=
  fun s =>
    let r := body s in
    match out r with
    | Crashed | Exited _ => r
    | o =>
        let r' := d (st r) in
        mkResult (cast_outcome (out r') o) (st r') (events r ++ events r')%list
    end.

(** [for _, x := range l { body }]. *)
Fixpoint for_range {A : Type} (l : list A) (body : A -> test W unit) : test W unit :=
  match l with
  | [] => mret tt
  | x :: l' => body x;; for_range l' body
  end.

(** *** The container lifecycle *)

Definition testImage : string := "terraform-mcp-server:test-e2e".

(** [getTestPort]. *)
Definition getTestPort : test W string :=
  port ← os_Getenv "E2E_TEST_PORT";
  if negb (String.eqb port EmptyString) then mret port else mret "8080".

(** [buildDockerImage]. *)
Definition buildDockerImage : test W unit :=
  t_Log "Building Docker image for e2e tests...";;
  '(output, err) ← run_cmd {| Args := ["make"; "VERSION=test-e2e"; "docker-build"];
                              Dir := ".."; Stdin := EmptyString |};
  require_NoError err
    ("expected to build Docker image successfully, output: " +:+ output).

(** [startHTTPContainer]. *)
Definition startHTTPContainer (port : string) : test W string :=
  let portMapping := port +:+ ":8080" in
  let cmd := Command "docker"
    ["run"; "-d"; "--rm"; "-e"; "MODE=http"; "-p"; portMapping; testImage] in
  '(output, err) ← run_cmd cmd;
  require_NoError err "expected to start HTTP container successfully";;
  match slice_to 12 output with
  | None => panic "runtime error: slice bounds out of range"
  | Some containerID =>
      t_Log ("Started HTTP container: " +:+ containerID +:+ " on port " +:+ port);;
      mret containerID
  end.

(** [waitForServer]: the body of the loop, with [n] iterations left. *)
Fixpoint waitLoop (n : nat) (baseURL : string) : test W unit :=
  match n with
  | O => t_Fatal "HTTP server failed to start within 30 seconds"
  | S n' =>
      r ← (emit (EGet (baseURL +:+ "/health"));; call (http_Get (baseURL +:+ "/health")));
      let resp := get_resp r in
      let err := get_err r in
      if bool_decide (err = None ∧ StatusCode <$> resp = Some 200%Z) then
        emit EBodyClose;;
        t_Log "HTTP server is ready"
      else
        (if bool_decide (resp ≠ None) then emit EBodyClose else mret tt);;
        (emit (ESleep 1);; call (λ w, (tt, time_Sleep 1 w)));;
        waitLoop n' baseURL
  end.

Definition waitForServer (baseURL : string) : test W unit :=
  waitLoop 30 baseURL.

(** [stopContainer]. *)
Definition stopContainer (containerID : string) : test W unit :=
  if String.eqb containerID EmptyString then mret tt
  else
    t_Log ("Stopping container: " +:+ containerID);;
    '(_, err) ← run_cmd (Command "docker" ["stop"; containerID]);
    match err with
    | Some e =>
        t_Log ("Warning: failed to stop container " +:+ containerID +:+ ": " +:+ Error e);;
        '(_, killErr) ← run_cmd (Command "docker" ["kill"; containerID]);
        match killErr with
        | Some ke =>
            t_Log ("Warning: failed to kill container " +:+ containerID +:+ ": " +:+ Error ke)
        | None => mret tt
        end
    | None => t_Log ("Successfully stopped container: " +:+ containerID)
    end.

(** [cleanupAllTestContainers]. *)
Definition cleanupAllTestContainers : test W unit :=
  t_Log "Cleaning up all test containers...";;
  '(output, err) ← run_cmd
    (Command "docker" ["ps"; "-q"; "--filter"; "ancestor=" +:+ testImage]);
  match err with
  | Some e => t_Log ("Warning: failed to list test containers: " +:+ Error e)
  | None =>
      let containerIDs := output in
      if String.eqb containerIDs EmptyString then
        t_Log "No test containers found to cleanup"
      else
        let stopCmd := {| Args := ["docker"; "stop"]; Dir := EmptyString;
                          Stdin := containerIDs |} in
        '(_, err) ← run_cmd stopCmd;
        match err with
        | Some e => t_Log ("Warning: failed to stop some test containers: " +:+ Error e)
        | None => t_Log "Successfully cleaned up all test containers"
        end
  end.

(** *** Sub-tests *)

Definition run_cleanup_fn (f : cleanup_fn) : test W unit :=
  match f with
  | stopContainer_cleanup containerID => stopContainer containerID
  | cleanupAllTestContainers_cleanup => cleanupAllTestContainers
  end.

(** The testing package runs the registered cleanups, last registered
    first; a cleanup that stops early does not keep the others from
    running. *)
Fixpoint runCleanup (fs : list cleanup_fn) (s : T W) : T W * list event :=
  match fs with
  | [] => (s, [])
  | f :: fs' =>
      let r := run_cleanup_fn f s in
      let '(s', ev) := runCleanup fs' (st r) in
      (s', (events r ++ ev)%list)
  end.

(** [t.Run(name, f)]: [f] runs as a test of its own, with its own
    cleanups, which run when it is over (also when it stopped by
    [FailNow]); the parent goes on and inherits the failure.  When [f]
    panics, the testing package still runs the cleanups of the
    panicking test and of its ancestors, and the process dies.  When [f]
    exits the process, nothing more runs. *)
Definition t_Run (name : string) (f : test W unit) : test W bool :=
  fun s =>
    let r := f (mkT (world s) [] false) in
    match out r with
    | Exited code =>
        mkResult (Exited code)
                 (mkT (world (st r)) (cleanups s) (failed s || failed (st r)))
                 (ERun name :: events r)
    | o =>
        let '(s', ev) :=
          runCleanup (cleanups (st r)) (mkT (world (st r)) [] (failed (st r))) in
        let died := match o with Panic _ | Crashed => true | _ => false end in
        mkResult (if died then Crashed else Returned (negb (failed s')))
                 (mkT (world s') (cleanups s) (failed s || failed s' || died))
                 (ERun name :: events r ++ ev)%list
    end.

(** *** The transport client factories *)

(** [createStdioClient]. *)
Definition createStdioClient : test W (option MCPClient * cleanup_closure) :=
  let args := ["docker"; "run"; "-i"; "--rm"; testImage] in
  t_Log "Starting Stdio MCP client...";;
  '(client, err) ← (emit (ENewStdioMCPClient "docker" [] (tail args));;
                    call (NewStdioMCPClient "docker" [] (tail args)));
  require_NoError err "expected to create stdio client successfully";;
  mret (client, stdio_cleanup client).

(** [createHTTPClient]. *)
Definition createHTTPClient : test W (option MCPClient * cleanup_closure) :=
  t_Log "Starting HTTP MCP server...";;
  port ← getTestPort;
  let baseURL := "http://localhost:" +:+ port in
  let mcpURL := "http://localhost:" +:+ port +:+ "/mcp" in
  containerID ← startHTTPContainer port;
  t_Cleanup (stopContainer_cleanup containerID);;
  waitForServer baseURL;;
  '(client, err) ← (emit (ENewStreamableHttpClient mcpURL);;
                    call (NewStreamableHttpClient mcpURL));
  require_NoError err "expected to create HTTP client successfully";;
  mret (client, http_cleanup client).

(** Calling the [cleanup] closure of a factory. *)
Definition run_cleanup_closure (c : cleanup_closure) : test W unit :=
  match c with
  | stdio_cleanup (Some client) => emit (EClose client);; call (λ w, (tt, Close client w))
  | stdio_cleanup None => panic "runtime error: invalid memory address or nil pointer dereference"
  | http_cleanup (Some client) => emit (EClose client);; call (λ w, (tt, Close client w))
  | http_cleanup None => mret tt
  end.

(** *** The suite *)

Definition initializeRequest : InitializeRequest :=
  {| ProtocolVersion := LATEST_PROTOCOL_VERSION;
     ClientInfo := {| ImplName := "e2e-test-client"; Version := "0.0.1" |} |}.

(** A method call through the client; on a nil client it panics. *)
Definition client_Initialize (client : option MCPClient) (request : InitializeRequest)
  : test W (option InitializeResult * option error) :=
  match client with
  | Some c => emit (EInitialize c request);; call (Initialize c request)
  | None => panic "runtime error: invalid memory address or nil pointer dereference"
  end.

Definition client_CallTool (client : option MCPClient) (request : CallToolRequest)
  : test W (option CallToolResult * option error) :=
  match client with
  | Some c => emit (ECallTool c request);; call (CallTool c request)
  | None => panic "runtime error: invalid memory address or nil pointer dereference"
  end.

(** Reading a field through a pointer. *)
Definition deref {A : Type} (p : option A) : test W A :=
  match p with
  | Some a => mret a
  | None => panic "runtime error: invalid memory address or nil pointer dereference"
  end.

(** [ensureClientInitialized]. *)
Definition ensureClientInitialized (client : option MCPClient) : test W unit :=
  '(result, err) ← client_Initialize client initializeRequest;
  match err with
  | Some e => t_Fatal ("Failed to initialize MCP client: " +:+ Error e)
  | None =>
      result ← deref result;
      t_Log ("Initialized with server: " +:+ ImplName (ServerInfo result) +:+ " "
             +:+ Version (ServerInfo result));;
      require_Equal "terraform-mcp-server" (ImplName (ServerInfo result))
  end.

(** The body of the [Initialize] sub-test of [runTestSuite]. *)
Definition initializeSubtest (client : option MCPClient) : test W unit :=
  '(result, err) ← client_Initialize client initializeRequest;
  match err with
  | Some e => log_Fatalf ("Failed to initialize: " +:+ Error e)
  | None =>
      result ← deref result;
      emit (EPrint ("Initialized with server: " +:+ ImplName (ServerInfo result) +:+ " "
                    +:+ Version (ServerInfo result) +:+ newline +:+ newline));;
      require_Equal "terraform-mcp-server" (ImplName (ServerInfo result))
  end.

(** The type assertion [c.(mcp.TextContent)] with its [ok]. *)
Definition as_TextContent (c : Content) : string * bool :=
  match c with
  | TextContent text => (text, true)
  | _ => (EmptyString, false)
  end.

(** [response.Content[0]]: indexing past the end panics. *)
Definition index0 (l : list Content) : test W Content :=
  match l !! 0%nat with
  | Some c => mret c
  | None => panic "runtime error: index out of range"
  end.

(** What the resolveProviderDocID sub-test does with the answer of
    [CallTool]. *)
Definition resolveProviderDocID_check (testCase : TestCase)
    (response : option CallToolResult) (err : option error) : test W unit :=
  if TestShouldFail testCase then
    require_Error err "expected to call 'resolveProviderDocID' tool with error";;
    t_Log ("Error: " +:+ from_option Error "<nil>" err)
  else
    require_NoError err "expected to call 'resolveProviderDocID' tool successfully";;
    response ← deref response;
    require_False (IsError response) "expected result not to be an error";;
    require_Len (Content_ response) 1 "expected content to have one item";;
    c ← index0 (Content_ response);
    let '(text, ok) := as_TextContent c in
    require_True ok "expected content to be of type TextContent";;
    t_Log ("Content length: " +:+ pretty (String.length text));;
    if String.eqb (TestContentType testCase) CONST_TYPE_DATA_SOURCE then
      require_Contains text "Category: data-sources" "expected content to contain data-sources"
    else if String.eqb (TestContentType testCase) CONST_TYPE_RESOURCE then
      require_Contains text "Category: resources" "expected content to contain resources"
    else if String.eqb (TestContentType testCase) CONST_TYPE_GUIDES then
      require_Contains text "guide" "expected content to contain guide"
    else if String.eqb (TestContentType testCase) CONST_TYPE_FUNCTIONS then
      require_Contains text "functions" "expected content to contain functions"
    else mret tt.

Definition getProviderDocs_check (testCase : TestCase)
    (response : option CallToolResult) (err : option error) : test W unit :=
  if TestShouldFail testCase then
    require_Error err "expected to call 'getProviderDocs' tool with error";;
    t_Log ("Error: " +:+ from_option Error "<nil>" err)
  else
    require_NoError err "expected to call 'getProviderDocs' tool successfully";;
    response ← deref response;
    require_False (IsError response) "expected result not to be an error";;
    require_Len (Content_ response) 1 "expected content to have one item";;
    c ← index0 (Content_ response);
    let '(text, ok) := as_TextContent c in
    require_True ok "expected content to be of type TextContent";;
    t_Log ("Content length: " +:+ pretty (String.length text));;
    require_Contains text "page_title" "expected content to contain a page_title".

Definition searchModules_check (testCase : TestCase)
    (response : option CallToolResult) (err : option error) : test W unit :=
  if TestShouldFail testCase then
    require_Error err "expected to call 'searchModules' tool with error";;
    t_Log ("Error: " +:+ from_option Error "<nil>" err)
  else
    require_NoError err "expected to call 'searchModules' tool successfully";;
    response ← deref response;
    require_False (IsError response) "expected result not to be an error";;
    if (0 <? length (Content_ response))%nat then
      c ← index0 (Content_ response);
      let '(text, ok) := as_TextContent c in
      require_True ok "expected content to be of type TextContent";;
      t_Log ("Content length: " +:+ pretty (String.length text))
    else
      t_Log "Response content is empty for successful call.".

Definition moduleDetails_check (testCase : TestCase)
    (response : option CallToolResult) (err : option error) : test W unit :=
  if TestShouldFail testCase then
    require_Error err "expected to call 'moduleDetails' tool with error";;
    t_Log ("Error: " +:+ from_option Error "<nil>" err)
  else
    require_NoError err "expected to call 'moduleDetails' tool successfully";;
    response ← deref response;
    require_False (IsError response) "expected result not to be an error";;
    require_Len (Content_ response) 1 "expected content to have one item";;
    c ← index0 (Content_ response);
    let '(text, ok) := as_TextContent c in
    require_True ok "expected content to be of type TextContent";;
    t_Log ("Content length: " +:+ pretty (String.length text));;
    if String.eqb (TestContentType testCase) CONST_TYPE_DATA_SOURCE then
      require_NotContains text "**Category:** resources"
        "expected content not to contain resources"
    else if String.eqb (TestContentType testCase) CONST_TYPE_RESOURCE then
      require_NotContains text "**Category:** data-sources"
        "expected content not to contain data-sources"
    else mret tt.

(** The body of one tool sub-test: the handshake again, the call, the
    checks.  The log line of the payload is kept without the rendering of
    the map; the per-call deadline of 30 seconds shows as an error of the
    call. *)
Definition toolSubtest (tool : string)
    (check : TestCase -> option CallToolResult -> option error -> test W unit)
    (client : option MCPClient) (testCase : TestCase) : test W unit :=
  ensureClientInitialized client;;
  t_Log ("TOOL " +:+ tool +:+ " " +:+ TestDescription testCase);;
  t_Log "Test payload: %v";;
  '(response, err) ← client_CallTool client
    {| Name := tool; Arguments := TestPayload testCase |};
  check testCase response err.

Definition toolTable (transportName tool : string)
    (check : TestCase -> option CallToolResult -> option error -> test W unit)
    (client : option MCPClient) (table : list TestCase) : test W unit :=
  for_range table (λ testCase,
    t_Run (transportName +:+ "_" +:+ tool +:+ "/" +:+ TestName testCase)
          (toolSubtest tool check client testCase);; mret tt).

(** [runTestSuite]. *)
Definition runTestSuite (client : option MCPClient) (transportName : string) : test W unit :=
  t_Run "Initialize" (initializeSubtest client);;
  toolTable transportName "resolveProviderDocID" resolveProviderDocID_check
            client providerTestCases;;
  toolTable transportName "getProviderDocs" getProviderDocs_check
            client providerDocsTestCases;;
  toolTable transportName "searchModules" searchModules_check
            client searchModulesTestCases;;
  toolTable transportName "moduleDetails" moduleDetails_check
            client moduleDetailsTestCases.

(** The sub-test [TestE2E] runs for one transport. *)
Definition transportSubtest (name : string)
    (clientFactory : test W (option MCPClient * cleanup_closure)) : test W unit :=
  '(client, cleanup) ← clientFactory;
  with_defer (run_cleanup_closure cleanup) (runTestSuite client name).

(** [TestE2E]. *)
Definition TestE2E : test W unit :=
  buildDockerImage;;
  t_Cleanup cleanupAllTestContainers_cleanup;;
  for_range [("Stdio", createStdioClient); ("HTTP", createHTTPClient)]
    (λ tc, t_Run (fst tc) (transportSubtest (fst tc) (snd tc));; mret tt).

(** The test binary: [TestE2E] run as the one top-level test in a fresh
    process. *)
Definition go_test (w : W) : result W bool :=
  t_Run "TestE2E" TestE2E (mkT w [] false).

End Harness.

End e2e.

(** ** A docker host to run the harness on

    A model of the docker command line, of the health endpoint and of the
    server behind the protocol clients, used for the concrete runs below.
    [docker run -d] starts a container and prints its identifier;
    [docker stop] and [docker kill] act on the containers named by their
    arguments (an identifier or a prefix of one) and fail when given none:
    they do not read standard input; [docker ps -q --filter ancestor=IMAGE]
    prints the short identifiers of the live containers of that image, one
    per line. *)

Module host.
Import Go mcp e2e.

Record container : Type := {
  ID : string;
  Image : string
}.

(** A docker host: its environment; the containers that are running; the
    identifiers the daemon gives to the containers it starts next; the
    answers of the health endpoint to the requests to come; the error, if
    any, with which the server answers a handshake; the answer of the server
    to a tool call. *)
Record state : Type := {
  env : gmap string string;
  live : list container;
  next_ids : list string;
  health : list GetResult;
  handshake : MCPClient -> option error;
  tool : MCPClient -> CallToolRequest -> option CallToolResult * option error
}.

Definition set_live (l : list container) (s : state) : state :=
  {| env := env s; live := l; next_ids := next_ids s; health := health s;
     handshake := handshake s; tool := tool s |}.

Definition names (ids : list string) (c : container) : bool :=
  existsb (λ id, String.prefix id (ID c)) ids.

Definition known (s : state) (id : string) : bool :=
  existsb (λ c, String.prefix id (ID c)) (live s).

(** [docker stop ID...] and [docker kill ID...]. *)
Definition docker_remove (ids : list string) (s : state) : (string * option error) * state :=
  match ids with
  | [] => ((EmptyString, Some (Err "requires at least 1 argument")), s)
  | _ =>
      let s' := set_live (filter (λ c, negb (names ids c)) (live s)) s in
      if forallb (known s) ids then ((EmptyString, None), s')
      else ((EmptyString, Some (Err "No such container")), s')
  end.

(** [docker run ... IMAGE]: the image is the last argument. *)
Definition docker_run (args : list string) (s : state) : (string * option error) * state :=
  match next_ids s with
  | [] => ((EmptyString, Some (Err "docker: Error response from daemon")), s)
  | id :: ids =>
      ((id +:+ newline, None),
       {| env := env s;
          live := live s ++ [{| ID := id; Image := List.last args EmptyString |}];
          next_ids := ids; health := health s;
          handshake := handshake s; tool := tool s |})
  end.

(** [docker ps -q --filter FILTER]. *)
Definition docker_ps (filter_ : string) (s : state) : string :=
  String.concat EmptyString
    (map (λ c, substring 0 12 (ID c) +:+ newline)
         (filter (λ c, String.eqb ("ancestor=" +:+ Image c) filter_) (live s))).

Definition host_exec (c : Cmd) (s : state) : (string * option error) * state :=
  match Args c with
  | "make" :: _ => ((EmptyString, None), s)
  | "docker" :: "run" :: args => docker_run args s
  | "docker" :: "stop" :: ids => docker_remove ids s
  | "docker" :: "kill" :: ids => docker_remove ids s
  | ["docker"; "ps"; "-q"; "--filter"; filter_] => ((docker_ps filter_ s, None), s)
  | _ => ((EmptyString, Some (Err "executable file not found in $PATH")), s)
  end.

Definition host_Get (url : string) (s : state) : GetResult * state :=
  match health s with
  | [] => (GetError None (Err "connection refused"), s)
  | r :: rs =>
      (r, {| env := env s; live := live s; next_ids := next_ids s; health := rs;
             handshake := handshake s; tool := tool s |})
  end.

Definition serverInfo : InitializeResult :=
  {| ServerInfo := {| ImplName := "terraform-mcp-server"; Version := "test-e2e" |} |}.

Definition host_Initialize (c : MCPClient) (request : InitializeRequest) (s : state)
  : (option InitializeResult * option error) * state :=
  match handshake s c with
  | Some e => ((None, Some e), s)
  | None => ((Some serverInfo, None), s)
  end.

#[global] Instance host_world : World state := {|
  environ := env;
  exec := host_exec;
  http_Get := host_Get;
  time_Sleep := λ _ s, s;
  NewStdioMCPClient := λ command env_ args s, ((Some (StdioMCPClient command env_ args), None), s);
  NewStreamableHttpClient := λ url s, ((Some (StreamableHttpClient url), None), s);
  Initialize := host_Initialize;
  CallTool := λ c request s, (tool s c request, s);
  Close := λ _ s, s
|}.

(** A suite with empty tool tables. *)
Definition no_cases : Fixtures := {|
  providerTestCases := [];
  providerDocsTestCases := [];
  searchModulesTestCases := [];
  moduleDetailsTestCases := [];
  CONST_TYPE_RESOURCE := "resources";
  CONST_TYPE_DATA_SOURCE := "data-sources";
  CONST_TYPE_GUIDES := "guides";
  CONST_TYPE_FUNCTIONS := "functions";
  LATEST_PROTOCOL_VERSION := "2025-03-26"
|}.

Definition id1 : string :=
  "4f1c2d3e5a6b7c8d9e0f1a2b3c4d5e6f7a8b9c0d1e2f3a4b5c6d7e8f9a0b1c2d".
Definition id2 : string :=
  "9a8b7c6d5e4f3a2b1c0d9e8f7a6b5c4d3e2f1a0b9c8d7e6f5a4b3c2d1e0f9a8b".

Definition ok200 : GetResult := GetResponse {| StatusCode := 200 |}.

Definition answer_ok (text : string) : option CallToolResult * option error :=
  (Some (NewToolResultText text), None).

(** A host on which everything works: the server becomes ready at the
    third health request. *)
Definition healthy : state := {|
  env := ∅;
  live := [];
  next_ids := [id1; id2];
  health := [GetError None (Err "connection refused");
             GetResponse {| StatusCode := 503 |}; ok200];
  handshake := λ _, None;
  tool := λ _ _, answer_ok "ok"
|}.

(** The same host, with a server that refuses the handshake over HTTP. *)
Definition http_handshake_fails : state := {|
  env := ∅;
  live := [];
  next_ids := [id1; id2];
  health := [ok200];
  handshake := λ c, match c with
                    | StreamableHttpClient _ => Some (Err "transport error: EOF")
                    | StdioMCPClient _ _ _ => None
                    end;
  tool := λ _ _, answer_ok "ok"
|}.

(** The same host, with a server that refuses the handshake over the
    pipe. *)
Definition stdio_handshake_fails : state := {|
  env := ∅;
  live := [];
  next_ids := [id1; id2];
  health := [ok200];
  handshake := λ c, match c with
                    | StdioMCPClient _ _ _ => Some (Err "transport error: EOF")
                    | StreamableHttpClient _ => None
                    end;
  tool := λ _ _, answer_ok "ok"
|}.

(** A host with two running containers of the test image and none of
    another image. *)
Definition two_test_containers : state := {|
  env := ∅;
  live := [{| ID := id1; Image := testImage |}; {| ID := id2; Image := testImage |}];
  next_ids := [];
  health := [];
  handshake := λ _, None;
  tool := λ _ _, answer_ok "ok"
|}.

(** A runtime on which every command succeeds and prints nothing, no
    client can be constructed and nothing listens. *)
#[global] Instance quiet_world : World unit := {|
  environ := λ _, ∅;
  exec := λ _ w, ((EmptyString, None), w);
  http_Get := λ _ w, (GetError None (Err "connection refused"), w);
  time_Sleep := λ _ w, w;
  NewStdioMCPClient := λ _ _ _ w, ((None, Some (Err "exec: docker: not started")), w);
  NewStreamableHttpClient := λ _ w, ((None, Some (Err "invalid URL")), w);
  Initialize := λ _ _ w, ((None, Some (Err "transport closed")), w);
  CallTool := λ _ _ w, ((None, Some (Err "transport closed")), w);
  Close := λ _ w, w
|}.

End host.

(** * The vocabulary of the properties

    What the statements below are written with: predicates on traces,
    projections of a trace, the outcomes the readiness poller meets, and the
    concrete hosts, rows and answers the theorems are run on. *)

Section HandlerTerms.
Import Go mcp tools.

(** A registry that cannot be reached. *)
Definition registry_down : Registry := {|
  SendRegistryCall := λ _ _ _, (EmptyString, Some (Err "connection refused"));
  json_Unmarshal := λ _, ({| client.Readme := EmptyString; client.Included := [] |},
                          Some (Err "unexpected end of JSON input"));
  ExtractReadme := λ readme, readme
|}.

Definition request_of (args : gmap string value) : CallToolRequest :=
  {| Name := "policy_details"; Arguments := args |}.

(** The attributes of the included entries of one type, in the order of
    the document. *)
Definition included_of (type_ : string) (included : list client.PolicyIncluded)
  : list client.PolicyAttributes :=
  map client.Attributes
      (filter (λ p, String.eqb (client.Type_ p) type_ = true) included).

(** The concatenation of a list of strings. *)
Definition join (l : list string) : string := fold_right String.append EmptyString l.

(** A registry that serves one fixed document, decoded as given. *)
Definition registry_serving (details : client.TerraformPolicyDetails) : Registry := {|
  SendRegistryCall := λ _ _ _, ("{}", None);
  json_Unmarshal := λ _, (details, None);
  ExtractReadme := λ readme, readme
|}.

(** A policy set with one module, one policy and one entry of another
    type. *)
Definition cis_details : client.TerraformPolicyDetails := {|
  client.Readme := "# CIS";
  client.Included :=
    [ {| client.Type_ := "policy-modules";
         client.Attributes := {| client.Name := "report"; client.Shasum := "aa11" |} |};
      {| client.Type_ := "policies";
         client.Attributes := {| client.Name := "s3-block-public"; client.Shasum := "bb22" |} |};
      {| client.Type_ := "policy-libraries";
         client.Attributes := {| client.Name := "lib"; client.Shasum := "cc33" |} |} ]
|}.

Definition cis_id : string := "policies/hashicorp/CIS-Policy-Set-for-AWS-Terraform/1.0.1".

End HandlerTerms.

Section HarnessTerms.
Import Go mcp e2e host.
Context {W : Type} `{!World W} `{!Fixtures}.

(** Every event [m] emits, from any state, satisfies [P]. *)
Definition emits {A : Type} (P : event → Prop) (m : test W A) : Prop :=
  ∀ s, Forall P (events (m s)).

(** [m] always returns, and leaves the failure mark and the registered
    cleanups of the test as they were. *)
Definition harmless {A : Type} (m : test W A) : Prop :=
  ∀ s, (∃ a, out (m s) = Returned a)
       ∧ failed (st (m s)) = failed s ∧ cleanups (st (m s)) = cleanups s.

(** The commands of a trace. *)
Definition execs (tr : list event) : list Cmd :=
  omap (λ e, match e with EExec c => Some c | _ => None end) tr.

(** An event that is a log line or a command: no assertion failure, no
    exit. *)
Definition is_log_or_exec (e : event) : Prop :=
  match e with ELog _ | EExec _ => True | _ => False end.

(** The tests and sub-tests a trace starts. *)
Definition subtests (tr : list event) : list string :=
  omap (λ e, match e with ERun name => Some name | _ => None end) tr.

(** The outcomes of the next [n] health requests, one second apart. *)
Fixpoint polls (n : nat) (url : string) (w : W) : list GetResult :=
  match n with
  | O => []
  | S n' => let '(r, w') := http_Get url w in r :: polls n' url (time_Sleep 1 w')
  end.

(** Ready: a response came, with status 200. *)
Definition is_ready (r : GetResult) : bool :=
  match r with
  | GetResponse resp => bool_decide (StatusCode resp = 200%Z)
  | GetError _ _ => false
  end.

(** The index of the first ready outcome. *)
Fixpoint first_ready (rs : list GetResult) : option nat :=
  match rs with
  | [] => None
  | r :: rs' => if is_ready r then Some O else S <$> first_ready rs'
  end.

(** The trace of an attempt that was not ready: the request, the body
    closed when a response came, one second of sleep. *)
Definition attempt_events (baseURL : string) (r : GetResult) : list event :=
  EGet (baseURL +:+ "/health")
  :: (if get_resp r is Some _ then [EBodyClose] else []) ++ [ESleep 1].

(** The port the environment asks for: the value of [E2E_TEST_PORT] when
    it is set and not empty, 8080 otherwise. *)
Definition port_of (w : W) : string :=
  match environ w !! "E2E_TEST_PORT" with
  | Some port => if String.eqb port EmptyString then "8080" else port
  | None => "8080"
  end.

(** An event of the HTTP factory that goes to the given port: a health
    request, the construction of the client, the launch of the container. *)
Definition bound_to (port : string) (e : event) : Prop :=
  match e with
  | EGet url => url = "http://localhost:" +:+ port +:+ "/health"
  | ENewStreamableHttpClient url => url = "http://localhost:" +:+ port +:+ "/mcp"
  | EExec c =>
      c = Command "docker" ["run"; "-d"; "--rm"; "-e"; "MODE=http"; "-p";
                            port +:+ ":8080"; testImage]
  | _ => True
  end.

(** [createHTTPClient] once the port is known. *)
Definition createHTTPClient_on (port : string)
  : test W (option MCPClient * cleanup_closure) :=
  containerID ← startHTTPContainer port;
  t_Cleanup (stopContainer_cleanup containerID);;
  waitForServer ("http://localhost:" +:+ port);;
  '(client, err) ← (emit (ENewStreamableHttpClient ("http://localhost:" +:+ port +:+ "/mcp"));;
                    call (NewStreamableHttpClient ("http://localhost:" +:+ port +:+ "/mcp")));
  require_NoError err "expected to create HTTP client successfully";;
  mret (client, http_cleanup client).

(** The command [startHTTPContainer] launches the container with. *)
Definition docker_run_http (port : string) : Cmd :=
  Command "docker" ["run"; "-d"; "--rm"; "-e"; "MODE=http"; "-p"; port +:+ ":8080"; testImage].

(** The listing command of the sweep. *)
Definition docker_ps_test : Cmd :=
  Command "docker" ["ps"; "-q"; "--filter"; "ancestor=" +:+ testImage].

(** The shape the three strict tables require of a successful answer. *)
Definition one_text_item (response : option CallToolResult) : Prop :=
  ∃ r text, response = Some r ∧ IsError r = false ∧ Content_ r = [TextContent text].

(** The shape the searchModules table requires: no content, or content
    whose first item is text. *)
Definition text_first_or_empty (response : option CallToolResult) : Prop :=
  ∃ r, response = Some r ∧ IsError r = false
       ∧ (Content_ r = [] ∨ ∃ text rest, Content_ r = TextContent text :: rest).

(** The healthy host with [E2E_TEST_PORT=9191]. *)
Definition port_9191 : state := {|
  env := {[ "E2E_TEST_PORT" := "9191" ]};
  live := live healthy;
  next_ids := next_ids healthy;
  health := health healthy;
  handshake := handshake healthy;
  tool := tool healthy
|}.

Definition make_docker_build : Cmd :=
  {| Args := ["make"; "VERSION=test-e2e"; "docker-build"]; Dir := "..";
     Stdin := EmptyString |}.

Definition short1 : string := substring 0 12 id1.
Definition short2 : string := substring 0 12 id2.

(** An expected-success and an expected-failure row. *)
Definition success_case : TestCase := {|
  TestName := "aws_modules"; TestDescription := "search for aws modules";
  TestPayload := {[ "moduleQuery" := VString "aws" ]};
  TestShouldFail := false; TestContentType := EmptyString
|}.

Definition failure_case : TestCase := {|
  TestName := "empty_payload"; TestDescription := "no arguments";
  TestPayload := ∅;
  TestShouldFail := true; TestContentType := EmptyString
|}.

(** An answer whose second item is an image. *)
Definition text_then_image : CallToolResult := {|
  Content_ := [TextContent "terraform-aws-modules/vpc/aws";
               ImageContent "iVBORw0KGgo=" "image/png"];
  IsError := false
|}.

(** [m] leaves the cleanups registered on the test as they were, however
    it ends. *)
Definition keeps_cleanups {A : Type} (m : test W A) : Prop :=
  ∀ s, cleanups (st (m s)) = cleanups s.

(** The events that start a sub-test, construct the HTTP client, call a
    tool. *)
Definition is_run (e : event) : bool :=
  match e with ERun _ => true | _ => false end.

(** An event that starts no sub-test. *)
Definition no_run (e : event) : Prop := is_run e = false.

Definition is_new_http_client (e : event) : bool :=
  match e with ENewStreamableHttpClient _ => true | _ => false end.

Definition is_call_tool (e : event) : bool :=
  match e with ECallTool _ _ => true | _ => false end.

(** The name [runTestSuite] gives to the sub-test of a row. *)
Definition case_name (transportName tool : string) (testCase : TestCase) : string :=
  transportName +:+ "_" +:+ tool +:+ "/" +:+ TestName testCase.

(** An answer with no error, the error flag unset and one text item whose
    text satisfies [ok]. *)
Definition one_text_with (ok : string → Prop)
    (response : option CallToolResult) (err : option error) : Prop :=
  err = None
  ∧ ∃ r text, response = Some r ∧ IsError r = false
              ∧ Content_ r = [TextContent text] ∧ ok text.

(** The healthy host, with a server that never becomes ready. *)
Definition never_ready : state := {|
  env := ∅; live := []; next_ids := [id1; id2]; health := [];
  handshake := λ _, None; tool := λ _ _, answer_ok "ok"
|}.

(** An expected-success row typed data-source. *)
Definition data_source_case : TestCase := {|
  TestName := "aws_ami"; TestDescription := "data source lookup";
  TestPayload := {[ "serviceSlug" := VString "ami" ]};
  TestShouldFail := false; TestContentType := "data-sources"
|}.

(** A machine on which no command can be run. *)
Definition no_commands : World unit := {|
  environ := λ _, ∅;
  exec := λ _ w, ((EmptyString, Some (Err "exit status 2")), w);
  http_Get := λ _ w, (GetError None (Err "connection refused"), w);
  time_Sleep := λ _ w, w;
  NewStdioMCPClient := λ _ _ _ w, ((None, Some (Err "exec: docker: not started")), w);
  NewStreamableHttpClient := λ _ w, ((None, Some (Err "invalid URL")), w);
  Initialize := λ _ _ w, ((None, Some (Err "transport closed")), w);
  CallTool := λ _ _ w, ((None, Some (Err "transport closed")), w);
  Close := λ _ w, w
|}.

(** A suite with one row in each table. *)
Definition one_case_each : Fixtures := {|
  providerTestCases := [success_case];
  providerDocsTestCases := [failure_case];
  searchModulesTestCases := [success_case];
  moduleDetailsTestCases := [failure_case];
  CONST_TYPE_RESOURCE := "resources";
  CONST_TYPE_DATA_SOURCE := "data-sources";
  CONST_TYPE_GUIDES := "guides";
  CONST_TYPE_FUNCTIONS := "functions";
  LATEST_PROTOCOL_VERSION := "2025-03-26"
|}.

End HarnessTerms.

(** * Properties *)

(** ** The policy_details handler *)

Section PolicyDetails.
Import Go mcp tools.

Context `{Registry}.

(** With a non-empty string argument the handler issues the registry call
    first: a GET of the policy path with its include list, on API v2. *)
Lemma getPolicyDetailsHandler_calls_registry request id :
Arguments request !! "terraform_policy_id" = Some (VString id) →
id ≠ EmptyString →
∃ tr, (getPolicyDetailsHandler request).2 =
      RegistryCall "GET" (id +:+ "?include=policies,policy-modules,policy-library") "v2" :: tr
      ∧ Forall (λ ev, is_RegistryCall ev = false) tr.
Proof.
  intros Hlk Hne. unfold getPolicyDetailsHandler, RequireString. rewrite Hlk.
  destruct (String.eqb id EmptyString) eqn:E.
  { apply String.eqb_eq in E. contradiction. }
  destruct (SendRegistryCall _ _ _) as [resp [e|]]; simpl.
  { eexists. split; [reflexivity|]. repeat constructor. }
  destruct (json_Unmarshal resp) as [d [e|]]; simpl.
  - eexists. split; [reflexivity|]. repeat constructor.
  - eexists. split; [reflexivity|]. constructor.
Qed.

(** C10.  When the argument [terraform_policy_id] is missing, is not a
    string, or is the empty string, [getPolicyDetailsHandler] returns a nil
    result with a non-nil error and its trace holds no registry call; and
    whenever its trace holds a registry call, the argument is present and
    is a non-empty string. *)
Theorem getPolicyDetailsHandler_requires_policy_id request :
  (Arguments request !! "terraform_policy_id" = None
   ∨ (∃ v, Arguments request !! "terraform_policy_id" = Some v ∧ ∀ s, v ≠ VString s)
   ∨ Arguments request !! "terraform_policy_id" = Some (VString EmptyString) →
   (∃ e, (getPolicyDetailsHandler request).1 = (None, Some e))
   ∧ Forall (λ ev, is_RegistryCall ev = false) (getPolicyDetailsHandler request).2)
  ∧ (∀ method uri version,
       In (RegistryCall method uri version) (getPolicyDetailsHandler request).2 →
       ∃ s, Arguments request !! "terraform_policy_id" = Some (VString s) ∧ s ≠ EmptyString).
Proof.
  unfold getPolicyDetailsHandler, RequireString.
  destruct (Arguments request !! "terraform_policy_id") as [v|] eqn:Hlk.
  2:{ split.
      - intros _. simpl. split; [eexists; reflexivity | repeat constructor].
      - simpl. intros m u ver [Hin|[]]. discriminate. }
  destruct v as [ | b | n | s | l ];
    try (split;
         [ intros _; simpl; split; [eexists; reflexivity | repeat constructor]
         | simpl; intros m u ver [Hin|[]]; discriminate ]).
  destruct (String.eqb s EmptyString) eqn:E.
  - split.
    + intros _. simpl. split; [eexists; reflexivity | repeat constructor].
    + simpl. intros m u ver [Hin|[]]. discriminate.
  - apply String.eqb_neq in E. split.
    + intros [Hn | [(v & Hv & Hns) | He]].
      * discriminate.
      * injection Hv as <-. exfalso. by apply (Hns s).
      * injection He as ->. contradiction.
    + intros _ _ _ _. exists s. split; [reflexivity | assumption].
Qed.

End PolicyDetails.

(** The handler at a request without the argument, on a registry that is
    down. *)
Lemma getPolicyDetailsHandler_requires_policy_id_witness :
  (∃ e, (@tools.getPolicyDetailsHandler registry_down (request_of ∅)).1 = (None, Some e))
  ∧ Forall (λ ev, tools.is_RegistryCall ev = false)
           (@tools.getPolicyDetailsHandler registry_down (request_of ∅)).2.
Proof.
  apply (proj1 (@getPolicyDetailsHandler_requires_policy_id registry_down (request_of ∅))).
  left. reflexivity.
Defined.

(** ** The e2e harness: reasoning about traces *)

Section Traces.
Import Go mcp e2e.
Context {W : Type} `{!World W} `{!Fixtures}.

Lemma emits_ret {A} P (a : A) : emits P (mret a : test W A).
Proof. intros s. constructor. Qed.

Lemma emits_bind {A B} P (m : test W A) (k : A → test W B) :
  emits P m → (∀ a, emits P (k a)) → emits P (m ≫= k).
Proof.
  intros Hm Hk s. unfold mbind, test_mbind, test_bind.
  specialize (Hm s). destruct (out (m s)); simpl; try assumption.
  apply Forall_app. split; [assumption | apply Hk].
Qed.

Lemma emits_emit P e : P e → emits P (emit e : test W unit).
Proof. intros He s. repeat constructor. exact He. Qed.

Lemma emits_call {A} P (f : W → A * W) : emits P (call f).
Proof. intros s. unfold call. destruct (f (world s)). constructor. Qed.

Lemma emits_t_FailNow {A} P : emits P (t_FailNow : test W A).
Proof. intros s. constructor. Qed.

Lemma emits_panic {A} P msg : emits P (panic msg : test W A).
Proof. intros s. constructor. Qed.

Lemma emits_t_Cleanup P f : emits P (t_Cleanup f : test W unit).
Proof. intros s. constructor. Qed.

Lemma emits_os_Getenv P key : emits P (os_Getenv key : test W string).
Proof. intros s. constructor. Qed.

Lemma harmless_ret {A} (a : A) : harmless (mret a : test W A).
Proof. intros s. simpl. eauto. Qed.

Lemma harmless_bind {A B} (m : test W A) (k : A → test W B) :
  harmless m → (∀ a, harmless (k a)) → harmless (m ≫= k).
Proof.
  intros Hm Hk s. unfold mbind, test_mbind, test_bind.
  destruct (Hm s) as ([a Ha] & Hf & Hc). rewrite Ha. simpl.
  destruct (Hk a (st (m s))) as (Hr & Hf' & Hc').
  split; [assumption|]. split; congruence.
Qed.

Lemma harmless_emit e : harmless (emit e : test W unit).
Proof. intros s. simpl. eauto. Qed.

Lemma harmless_call {A} (f : W → A * W) : harmless (call f).
Proof. intros s. unfold call. destruct (f (world s)). simpl. eauto. Qed.

End Traces.

Create HintDb trace.
#[global] Hint Resolve emits_ret emits_call emits_t_FailNow emits_panic emits_t_Cleanup
  emits_os_Getenv : trace.
#[global] Hint Resolve harmless_ret harmless_emit harmless_call : trace.

(** Walks through a sequence of binds, one obligation per step; a result
    that is matched on is split into its cases. *)
Ltac split_scrutinee :=
  match goal with
  | |- context [ let '(_, _) := ?a in _ ] => is_var a; destruct a
  | |- context [ match ?x with Some _ => _ | None => _ end ] => is_var x; destruct x
  end.

Ltac emits_steps :=
  repeat first
    [ solve [ eauto with trace ]
    | apply emits_bind; [ | intros ? ]
    | apply emits_emit
    | split_scrutinee ].

Ltac harmless_steps :=
  repeat first
    [ apply harmless_bind; [ | intros ? ]
    | solve [ eauto with trace ]
    | split_scrutinee ].

(** ** The container lifecycle *)

Section Lifecycle.
Import Go mcp e2e.
Context {W : Type} `{!World W} `{!Fixtures}.

Lemma harmless_t_Log msg : harmless (t_Log msg : test W unit).
Proof. apply harmless_emit. Qed.

Lemma harmless_run_cmd c : harmless (run_cmd c : test W _).
Proof. unfold run_cmd. harmless_steps. Qed.

Lemma emits_t_Log msg : emits is_log_or_exec (t_Log msg : test W unit).
Proof. apply emits_emit. exact I. Qed.

Lemma emits_run_cmd c : emits is_log_or_exec (run_cmd c : test W _).
Proof. unfold run_cmd. emits_steps. exact I. Qed.

Hint Resolve harmless_t_Log harmless_run_cmd emits_t_Log emits_run_cmd : trace.

Lemma stopContainer_harmless containerID : harmless (stopContainer containerID).
Proof.
  unfold stopContainer. destruct (String.eqb containerID EmptyString); harmless_steps.
Qed.

Lemma stopContainer_emits containerID : emits is_log_or_exec (stopContainer containerID).
Proof.
  unfold stopContainer. destruct (String.eqb containerID EmptyString); emits_steps.
Qed.

Lemma harmless_returns (m : test W unit) s : harmless m → out (m s) = Returned tt.
Proof. intros Hm. destruct (Hm s) as ([[] Ha] & _). exact Ha. Qed.

(** On a non-empty identifier [stopContainer] runs [docker stop] on it,
    and [docker kill] on it exactly when the stop failed. *)
Lemma stopContainer_commands containerID (s : T W) :
  containerID ≠ EmptyString →
  execs (events (stopContainer containerID s)) =
    match (exec (Command "docker" ["stop"; containerID]) (world s)).1.2 with
    | None => [Command "docker" ["stop"; containerID]]
    | Some _ => [Command "docker" ["stop"; containerID];
                 Command "docker" ["kill"; containerID]]
    end.
Proof.
  intros Hne. unfold stopContainer.
  destruct (String.eqb containerID EmptyString) eqn:E.
  { apply String.eqb_eq in E. contradiction. }
  unfold mbind, test_mbind, test_bind, run_cmd, t_Log, emit, call. simpl.
  destruct (exec (Command "docker" ["stop"; containerID]) (world s))
    as [[o [e|]] w1]; simpl; [|reflexivity].
  destruct (exec (Command "docker" ["kill"; containerID]) w1)
    as [[o' [e'|]] w2]; reflexivity.
Qed.

(** What [startHTTPContainer] returns is the first 12 bytes of what
    [docker run] printed. *)
Lemma startHTTPContainer_returns port (s : T W) containerID :
  out (startHTTPContainer port s) = Returned containerID →
  String.length containerID = 12
  ∧ ∃ output w,
      exec (Command "docker" ["run"; "-d"; "--rm"; "-e"; "MODE=http"; "-p";
                              port +:+ ":8080"; testImage]) (world s)
      = ((output, None), w)
      ∧ containerID = substring 0 12 output.
Proof.
  unfold startHTTPContainer, mbind, test_mbind, test_bind, run_cmd, emit, call. simpl.
  destruct (exec _ (world s)) as [[output [e|]] w]; simpl; [discriminate|].
  unfold slice_to. destruct (12 <=? String.length output)%nat eqn:E; simpl; [|discriminate].
  intros [= <-]. apply Nat.leb_le in E. split; [|eauto].
  clear -E. generalize 12 E. clear E. induction output as [|a output IH]; intros n Hn.
  - simpl in Hn. assert (n = 0)%nat as -> by lia. reflexivity.
  - destruct n as [|n]; [reflexivity|]. simpl in *. f_equal.
    rewrite <- (IH n) at 2 by lia. reflexivity.
Qed.

End Lifecycle.

(** ** The readiness poller *)

Section Readiness.
Import Go mcp e2e.
Context {W : Type} `{!World W} `{!Fixtures}.

Lemma polls_length n url w : length (polls n url w) = n.
Proof.
  revert w. induction n as [|n IH]; intros w; simpl; [reflexivity|].
  destruct (http_Get url w) as [r w']. simpl. by rewrite IH.
Qed.

Lemma first_ready_lt rs k : first_ready rs = Some k → (k < length rs)%nat.
Proof.
  revert k. induction rs as [|r rs IH]; intros k; simpl; [discriminate|].
  destruct (is_ready r).
  - intros [= <-]. lia.
  - destruct (first_ready rs) as [j|]; simpl; [|discriminate].
    intros [= <-]. specialize (IH j eq_refl). lia.
Qed.

(** One turn of the loop. *)
Lemma waitLoop_S n baseURL (s : T W) :
  waitLoop (S n) baseURL s =
    let '(r, w1) := http_Get (baseURL +:+ "/health") (world s) in
    if is_ready r then
      mkResult (Returned tt) (mkT w1 (cleanups s) (failed s))
               [EGet (baseURL +:+ "/health"); EBodyClose; ELog "HTTP server is ready"]
    else
      let r' := waitLoop n baseURL (mkT (time_Sleep 1 w1) (cleanups s) (failed s)) in
      mkResult (out r') (st r') (attempt_events baseURL r ++ events r')%list.
Proof.
  cbn [waitLoop]. unfold mbind, test_mbind, test_bind, emit, call, t_Log, emit. cbn.
  destruct (http_Get (baseURL +:+ "/health") (world s)) as [r w1]. cbn.
  destruct r as [resp | resp err]; cbn.
  - destruct (bool_decide (StatusCode resp = 200%Z)) eqn:E200.
    + apply bool_decide_eq_true in E200.
      rewrite bool_decide_true by (split; [reflexivity | by rewrite E200]).
      reflexivity.
    + apply bool_decide_eq_false in E200.
      rewrite bool_decide_false by (intros [_ [= Hs]]; contradiction).
      reflexivity.
  - destruct resp as [resp|]; reflexivity.
Qed.

Lemma waitLoop_spec n baseURL (s : T W) :
  let rs := polls n (baseURL +:+ "/health") (world s) in
  let r := waitLoop n baseURL s in
  match first_ready rs with
  | Some k =>
      out r = Returned tt ∧ failed (st r) = failed s
      ∧ events r = (flat_map (attempt_events baseURL) (take k rs)
                    ++ [EGet (baseURL +:+ "/health"); EBodyClose;
                        ELog "HTTP server is ready"])%list
  | None =>
      out r = FailNow ∧ failed (st r) = true
      ∧ events r = (flat_map (attempt_events baseURL) rs
                    ++ [ELog "HTTP server failed to start within 30 seconds"])%list
  end.
Proof.
  revert s. induction n as [|n IH]; intros s.
  { cbn. repeat split. }
  cbv zeta. rewrite waitLoop_S. cbn [polls].
  destruct (http_Get (baseURL +:+ "/health") (world s)) as [r w1].
  cbn [first_ready]. destruct (is_ready r) eqn:Er.
  { cbn. repeat split. }
  specialize (IH (mkT (time_Sleep 1 w1) (cleanups s) (failed s))). cbv zeta in IH.
  cbn [world] in IH.
  destruct (first_ready (polls n (baseURL +:+ "/health") (time_Sleep 1 w1))) as [k|];
    cbn [fmap option_fmap option_map out st events];
    destruct IH as (Ho & Hf & Hev); rewrite Hev;
    (split; [exact Ho | split; [exact Hf |]]).
  - cbn [take flat_map]. by rewrite <- app_assoc.
  - cbn [flat_map]. by rewrite <- app_assoc.
Qed.

(** C7.  [waitForServer] against the outcomes of the next 30 health
    requests (to [baseURL + "/health"], one second apart): when the first
    outcome with status 200 is the one of index [k], it returns after
    [k + 1] requests, [k] of them followed by a second of sleep, and the
    test is not marked failed; when none of the 30 has status 200 it makes
    30 requests and stops the calling test by [t.Fatal].  Any other status
    and any error count as not ready, and the body of every response that
    came is closed right after its request, ready or not. *)
Theorem waitForServer_polls_health baseURL (s : T W) :
  let rs := polls 30 (baseURL +:+ "/health") (world s) in
  let r := waitForServer baseURL s in
  length rs = 30%nat
  ∧ match first_ready rs with
    | Some k =>
        (k < 30)%nat
        ∧ out r = Returned tt ∧ failed (st r) = failed s
        ∧ events r = (flat_map (attempt_events baseURL) (take k rs)
                      ++ [EGet (baseURL +:+ "/health"); EBodyClose;
                          ELog "HTTP server is ready"])%list
    | None =>
        out r = FailNow ∧ failed (st r) = true
        ∧ events r = (flat_map (attempt_events baseURL) rs
                      ++ [ELog "HTTP server failed to start within 30 seconds"])%list
    end.
Proof.
  intros rs r. split; [apply polls_length|].
  pose proof (waitLoop_spec 30 baseURL s) as Hspec. cbv zeta in Hspec.
  fold rs in Hspec. fold (waitForServer baseURL s) in Hspec. fold r in Hspec.
  destruct (first_ready rs) as [k|] eqn:Hk; [|exact Hspec].
  split; [|exact Hspec].
  apply first_ready_lt in Hk. unfold rs in Hk. by rewrite polls_length in Hk.
Qed.

End Readiness.

(** ** The HTTP factory and its port *)

Section Port.
Import Go mcp e2e.
Context {W : Type} `{!World W} `{!Fixtures}.

Lemma getTestPort_eq (s : T W) :
  getTestPort s = mkResult (Returned (port_of (world s))) s [].
Proof.
  unfold getTestPort, port_of, os_Getenv, mbind, test_mbind, test_bind. cbn.
  destruct (environ (world s) !! "E2E_TEST_PORT") as [port|]; cbn; [|reflexivity].
  destruct (String.eqb port EmptyString); reflexivity.
Qed.

Lemma createHTTPClient_eq (s : T W) :
  createHTTPClient s =
    let r := createHTTPClient_on (port_of (world s)) s in
    mkResult (out r) (st r) (ELog "Starting HTTP MCP server..." :: events r).
Proof.
  unfold createHTTPClient. unfold mbind at 1 2. unfold test_mbind at 1 2.
  unfold test_bind at 1 2. cbn [t_Log emit out st events].
  rewrite getTestPort_eq. cbn [out st events app].
  fold (createHTTPClient_on (port_of (world s))).
  destruct (out (createHTTPClient_on (port_of (world s)) s)); reflexivity.
Qed.

Lemma emits_require_NoError P err msg :
  (∀ m, P (EError m)) → emits P (require_NoError err msg : test W unit).
Proof.
  intros HP. destruct err; cbn; [|apply emits_ret].
  unfold require_fail. apply emits_bind; [apply emits_emit, HP | intros; apply emits_t_FailNow].
Qed.

Lemma emits_waitLoop port n :
  emits (bound_to port) (waitLoop n ("http://localhost:" +:+ port)).
Proof.
  induction n as [|n IH]; intros s.
  { repeat constructor. }
  rewrite waitLoop_S. destruct (http_Get _ (world s)) as [r w1].
  destruct (is_ready r).
  - repeat constructor.
  - cbn [events]. apply Forall_app. split; [|apply IH].
    unfold attempt_events. constructor; [reflexivity|].
    destruct (get_resp r); repeat constructor.
Qed.

Lemma emits_waitForServer port :
  emits (bound_to port) (waitForServer ("http://localhost:" +:+ port)).
Proof. apply emits_waitLoop. Qed.

Lemma emits_startHTTPContainer port : emits (bound_to port) (startHTTPContainer port).
Proof.
  unfold startHTTPContainer, run_cmd, t_Log.
  apply emits_bind.
  { apply emits_bind; [apply emits_emit; reflexivity | intros; apply emits_call]. }
  intros [output err]. apply emits_bind.
  { apply emits_require_NoError. intros; exact I. }
  intros _. destruct (slice_to 12 output); [|apply emits_panic].
  apply emits_bind; [apply emits_emit; exact I | intros; apply emits_ret].
Qed.

Lemma emits_createHTTPClient_on port : emits (bound_to port) (createHTTPClient_on port).
Proof.
  unfold createHTTPClient_on.
  apply emits_bind; [apply emits_startHTTPContainer | intros containerID].
  apply emits_bind; [apply emits_t_Cleanup | intros _].
  apply emits_bind; [apply emits_waitForServer | intros _].
  apply emits_bind.
  { apply emits_bind; [apply emits_emit; reflexivity | intros; apply emits_call]. }
  intros [client err]. apply emits_bind.
  { apply emits_require_NoError. intros; exact I. }
  intros _. apply emits_ret.
Qed.

(** A bind that returned went through both of its halves. *)
Lemma bind_Returned {A B} (m : test W A) (k : A → test W B) s b :
  out ((m ≫= k) s) = Returned b →
  ∃ a, out (m s) = Returned a ∧ out (k a (st (m s))) = Returned b
       ∧ events ((m ≫= k) s) = (events (m s) ++ events (k a (st (m s))))%list.
Proof.
  unfold mbind, test_mbind, test_bind.
  destruct (out (m s)) as [a| | | |] eqn:E; cbn; try discriminate.
  intros Hb. exists a. auto.
Qed.

Lemma waitForServer_first_event baseURL (s : T W) :
  ∃ tr, events (waitForServer baseURL s) = EGet (baseURL +:+ "/health") :: tr.
Proof.
  unfold waitForServer. rewrite waitLoop_S.
  destruct (http_Get _ (world s)) as [r w1]. destruct (is_ready r); cbn; eauto.
Qed.

(** When the factory returns, it has asked the health endpoint of the
    port and has constructed the client on the [/mcp] path of the port. *)
Lemma createHTTPClient_on_reaches port (s : T W) c :
  out (createHTTPClient_on port s) = Returned c →
  In (EGet ("http://localhost:" +:+ port +:+ "/health")) (events (createHTTPClient_on port s))
  ∧ In (ENewStreamableHttpClient ("http://localhost:" +:+ port +:+ "/mcp"))
       (events (createHTTPClient_on port s)).
Proof.
  unfold createHTTPClient_on. intros Hret.
  apply bind_Returned in Hret as (containerID & _ & Hret & ->).
  apply bind_Returned in Hret as ([] & _ & Hret & ->).
  apply bind_Returned in Hret as ([] & _ & Hret & ->).
  apply bind_Returned in Hret as ([client err] & Hnew & _ & ->).
  apply bind_Returned in Hnew as ([] & _ & _ & ->).
  split.
  - apply in_or_app. right. apply in_or_app. right. apply in_or_app. left.
    destruct (waitForServer_first_event ("http://localhost:" +:+ port)
                (st (t_Cleanup (stopContainer_cleanup containerID)
                       (st (startHTTPContainer port s))))) as [tr ->].
    left. reflexivity.
  - apply in_or_app. right. apply in_or_app. right. apply in_or_app. right.
    apply in_or_app. left. apply in_or_app. left. left. reflexivity.
Qed.


End Port.

(** ** Starting, stopping and sweeping containers *)

Section Containers.
Import Go mcp e2e.
Context {W : Type} `{!World W} `{!Fixtures}.

(** When the launch command cannot be run, only the calling test is
    stopped. *)
Lemma startHTTPContainer_launch_error port (s : T W) output e w :
  exec (docker_run_http port) (world s) = ((output, Some e), w) →
  out (startHTTPContainer port s) = FailNow
  ∧ failed (st (startHTTPContainer port s)) = true.
Proof.
  intros Hexec.
  unfold docker_run_http, startHTTPContainer, run_cmd, mbind, test_mbind, test_bind, emit, call
    in *.
  cbn in *. rewrite Hexec. cbn. split; reflexivity.
Qed.

(** On an output of at least 12 bytes the handle is its first 12 bytes. *)
Lemma startHTTPContainer_truncates port (s : T W) output w :
  exec (docker_run_http port) (world s) = ((output, None), w) →
  (12 ≤ String.length output)%nat →
  out (startHTTPContainer port s) = Returned (substring 0 12 output).
Proof.
  intros Hexec Hlen.
  unfold docker_run_http, startHTTPContainer, run_cmd, mbind, test_mbind, test_bind, emit, call
    in *.
  cbn in Hexec |- *. rewrite Hexec. cbn. unfold slice_to.
  apply Nat.leb_le in Hlen. rewrite Hlen. reflexivity.
Qed.

(** C4.  When the launch command succeeds and prints fewer than 12 bytes
    (nothing at all included), the slice [string(output)[:12]] of
    [startHTTPContainer] is out of range: the function panics instead of
    returning a handle or failing the calling test. *)
Theorem startHTTPContainer_short_output_panics port (s : T W) output w :
  exec (docker_run_http port) (world s) = ((output, None), w) →
  (String.length output < 12)%nat →
  out (startHTTPContainer port s) = Panic "runtime error: slice bounds out of range".
Proof.
  intros Hexec Hlen.
  unfold docker_run_http, startHTTPContainer, run_cmd, mbind, test_mbind, test_bind, emit, call
    in *.
  cbn in Hexec |- *. rewrite Hexec. cbn. unfold slice_to.
  apply Nat.leb_gt in Hlen. rewrite Hlen. reflexivity.
Qed.

(** C9.  For every handle, that is every identifier [startHTTPContainer]
    returned, and in every state of the runtime: [stopContainer] runs
    [docker stop] on the identifier, and [docker kill] on it exactly when
    the stop failed; it returns, emits nothing but log lines and these
    commands, and leaves the failure mark of the test as it was.  A second
    call right after the first does the same. *)
Theorem stopContainer_never_escalates port (s0 : T W) containerID (s : T W) :
  out (startHTTPContainer port s0) = Returned containerID →
  let stop := Command "docker" ["stop"; containerID] in
  let kill := Command "docker" ["kill"; containerID] in
  let r1 := stopContainer containerID s in
  let r2 := stopContainer containerID (st r1) in
  (execs (events r1) =
     match (exec stop (world s)).1.2 with None => [stop] | Some _ => [stop; kill] end
   ∧ out r1 = Returned tt ∧ failed (st r1) = failed s
   ∧ Forall is_log_or_exec (events r1))
  ∧ (execs (events r2) =
       match (exec stop (world (st r1))).1.2 with None => [stop] | Some _ => [stop; kill] end
     ∧ out r2 = Returned tt ∧ failed (st r2) = failed s
     ∧ Forall is_log_or_exec (events r2)).
Proof.
  intros Hstart stop kill r1 r2.
  apply startHTTPContainer_returns in Hstart as [Hlen _].
  assert (containerID ≠ EmptyString) as Hne by (intros ->; discriminate Hlen).
  pose proof (stopContainer_harmless containerID) as Hh.
  pose proof (stopContainer_emits containerID) as He.
  assert (failed (st r1) = failed s) as Hf1 by apply (Hh s).
  repeat split.
  - apply stopContainer_commands, Hne.
  - apply harmless_returns, Hh.
  - exact Hf1.
  - apply He.
  - apply stopContainer_commands, Hne.
  - apply harmless_returns, Hh.
  - rewrite <- Hf1. apply (Hh (st r1)).
  - apply He.
Qed.

(** The sweep always returns, without marking the test failed. *)
Lemma cleanupAllTestContainers_harmless : harmless (cleanupAllTestContainers (W:=W)).
Proof.
  unfold cleanupAllTestContainers.
  apply harmless_bind; [apply harmless_t_Log | intros _].
  apply harmless_bind; [apply harmless_run_cmd | intros [output [e|]]].
  { apply harmless_t_Log. }
  destruct (String.eqb output EmptyString); [apply harmless_t_Log|].
  apply harmless_bind; [apply harmless_run_cmd | intros [o [e|]]]; apply harmless_t_Log.
Qed.

(** The commands of the sweep: the listing; then, when it succeeded and
    printed something, one [docker stop] whose argument vector names no
    container: the listing goes to its standard input. *)
Lemma cleanupAllTestContainers_commands (s : T W) :
  execs (events (cleanupAllTestContainers s)) =
    match exec docker_ps_test (world s) with
    | ((output, None), _) =>
        if String.eqb output EmptyString then [docker_ps_test]
        else [docker_ps_test;
              {| Args := ["docker"; "stop"]; Dir := EmptyString; Stdin := output |}]
    | ((_, Some _), _) => [docker_ps_test]
    end.
Proof.
  unfold cleanupAllTestContainers, docker_ps_test, run_cmd, t_Log, mbind, test_mbind,
    test_bind, emit, call. cbn.
  destruct (exec _ (world s)) as [[output [e|]] w1]; cbn; [reflexivity|].
  destruct (String.eqb output EmptyString); cbn; [reflexivity|].
  destruct (exec _ w1) as [[o [e|]] w2]; reflexivity.
Qed.

End Containers.

(** ** What the runner requires of a tool answer *)

Section Checks.
Import Go mcp e2e.
Context {W : Type} `{!World W} `{!Fixtures}.


Ltac reject := let Hx := fresh in cbn; intros Hx; discriminate Hx.

Ltac strict_check Hfail response err :=
  rewrite Hfail;
  destruct err as [e|]; [reject|];
  destruct response as [[content iserr]|]; [|reject];
  destruct iserr; [reject|];
  destruct content as [|c [|c' l]]; [reject| |reject];
  destruct c; [|reject..];
  intros _; split; [reflexivity|]; unfold one_text_item; eauto.

Lemma resolveProviderDocID_check_accepts testCase response err (s : T W) :
  TestShouldFail testCase = false →
  out (resolveProviderDocID_check testCase response err s) = Returned tt →
  err = None ∧ one_text_item response.
Proof. intros Hfail. unfold resolveProviderDocID_check. strict_check Hfail response err. Qed.

Lemma getProviderDocs_check_accepts testCase response err (s : T W) :
  TestShouldFail testCase = false →
  out (getProviderDocs_check testCase response err s) = Returned tt →
  err = None ∧ one_text_item response.
Proof. intros Hfail. unfold getProviderDocs_check. strict_check Hfail response err. Qed.

Lemma moduleDetails_check_accepts testCase response err (s : T W) :
  TestShouldFail testCase = false →
  out (moduleDetails_check testCase response err s) = Returned tt →
  err = None ∧ one_text_item response.
Proof. intros Hfail. unfold moduleDetails_check. strict_check Hfail response err. Qed.

Lemma searchModules_check_accepts testCase response err (s : T W) :
  TestShouldFail testCase = false →
  out (searchModules_check testCase response err s) = Returned tt
  ↔ err = None ∧ text_first_or_empty response.
Proof.
  intros Hfail. unfold searchModules_check, text_first_or_empty. rewrite Hfail. split.
  - destruct err as [e|]; [reject|].
    destruct response as [[content iserr]|]; [|reject].
    destruct iserr; [reject|].
    destruct content as [|c l].
    + intros _. split; [reflexivity|]. eexists. cbn. eauto.
    + destruct c; [|reject..].
      intros _. split; [reflexivity|]. eexists. cbn. eauto 6.
  - intros [-> (r & -> & Hok & Hcontent)]. destruct r as [content iserr].
    cbn in Hok, Hcontent. subst iserr.
    destruct Hcontent as [-> | (text & rest & ->)]; reflexivity.
Qed.


End Checks.

(** ** The handshake of the suite *)

Section Suite.
Import Go mcp e2e.
Context {W : Type} `{!World W} `{!Fixtures}.

(** The process ends where [m] exits it: what follows does not run. *)
Lemma bind_Exited {A B} (m : test W A) (k : A → test W B) s code :
  out (m s) = Exited code →
  out ((m ≫= k) s) = Exited code ∧ events ((m ≫= k) s) = events (m s).
Proof.
  intros Hm. unfold mbind, test_mbind, test_bind. rewrite Hm. split; reflexivity.
Qed.

(** Neither the cleanups of a sub-test nor those of its ancestors run
    when its body exits the process. *)
Lemma t_Run_Exited name (f : test W unit) s code :
  out (f (mkT (world s) [] false)) = Exited code →
  out (t_Run name f s) = Exited code
  ∧ events (t_Run name f s) = ERun name :: events (f (mkT (world s) [] false))
  ∧ world (st (t_Run name f s)) = world (st (f (mkT (world s) [] false))).
Proof.
  intros Hf. unfold t_Run. rewrite Hf. repeat split.
Qed.

Lemma with_defer_Exited {A} (d : test W unit) (body : test W A) s code :
  out (body s) = Exited code → with_defer d body s = body s.
Proof. intros Hb. unfold with_defer. rewrite Hb. reflexivity. Qed.

(** The [Initialize] sub-test on a handshake that fails. *)
Lemma initializeSubtest_error c (s : T W) result e w :
  Initialize c initializeRequest (world s) = ((result, Some e), w) →
  out (initializeSubtest (Some c) s) = Exited 1
  ∧ events (initializeSubtest (Some c) s) =
      [EInitialize c initializeRequest;
       EPrint ("Failed to initialize: " +:+ Error e); EExit 1].
Proof.
  intros Hinit.
  unfold initializeSubtest, client_Initialize, log_Fatalf, os_Exit, mbind, test_mbind,
    test_bind, emit, call.
  cbn. rewrite Hinit. cbn. split; reflexivity.
Qed.

(** The same handshake in [ensureClientInitialized] stops the calling
    sub-test only. *)
Lemma ensureClientInitialized_error c (s : T W) result e w :
  Initialize c initializeRequest (world s) = ((result, Some e), w) →
  out (ensureClientInitialized (Some c) s) = FailNow
  ∧ failed (st (ensureClientInitialized (Some c) s)) = true.
Proof.
  intros Hinit.
  unfold ensureClientInitialized, client_Initialize, t_Fatal, t_Log, t_FailNow, mbind,
    test_mbind, test_bind, emit, call.
  cbn. rewrite Hinit. cbn. split; reflexivity.
Qed.

(** C3.  When the handshake of the [Initialize] sub-test of
    [runTestSuite] returns an error, the suite ends by [os.Exit(1)] right
    after printing the failure: no tool sub-test is started, the deferred
    [cleanup] of the transport sub-test does not run, and the transport
    sub-test itself ends the process, so that nothing after it runs
    either. *)
Theorem runTestSuite_handshake_error_exits c transportName cleanup (s : T W) result e w :
  Initialize c initializeRequest (world s) = ((result, Some e), w) →
  let body := with_defer (run_cleanup_closure cleanup) (runTestSuite (Some c) transportName) in
  out (runTestSuite (Some c) transportName s) = Exited 1
  ∧ events (runTestSuite (Some c) transportName s) =
      [ERun "Initialize"; EInitialize c initializeRequest;
       EPrint ("Failed to initialize: " +:+ Error e); EExit 1]
  ∧ body s = runTestSuite (Some c) transportName s
  ∧ ∀ (k : bool → test W unit) s',
      world s' = world s →
      out ((t_Run transportName body ≫= k) s') = Exited 1.
Proof.
  intros Hinit body.
  assert (∀ s1 : T W, world s1 = world s →
            out (runTestSuite (Some c) transportName s1) = Exited 1
            ∧ events (runTestSuite (Some c) transportName s1) =
                [ERun "Initialize"; EInitialize c initializeRequest;
                 EPrint ("Failed to initialize: " +:+ Error e); EExit 1]) as Hsuite.
  { intros s1 Hw.
    assert (Initialize c initializeRequest (world (mkT (world s1) [] false))
            = ((result, Some e), w)) as Hinit' by (cbn; by rewrite Hw).
    apply initializeSubtest_error in Hinit' as [Ho Hev].
    destruct (t_Run_Exited "Initialize" (initializeSubtest (Some c)) s1 1 Ho)
      as (Ho' & Hev' & _).
    unfold runTestSuite.
    destruct (bind_Exited (t_Run "Initialize" (initializeSubtest (Some c)))
                (λ _, toolTable transportName "resolveProviderDocID"
                        resolveProviderDocID_check (Some c) providerTestCases;;
                      toolTable transportName "getProviderDocs"
                        getProviderDocs_check (Some c) providerDocsTestCases;;
                      toolTable transportName "searchModules"
                        searchModules_check (Some c) searchModulesTestCases;;
                      toolTable transportName "moduleDetails"
                        moduleDetails_check (Some c) moduleDetailsTestCases)
                s1 1 Ho') as [Hb Hbe].
    split; [exact Hb|]. rewrite Hbe, Hev', Hev. reflexivity. }
  destruct (Hsuite s eq_refl) as [Ho Hev].
  split; [exact Ho|]. split; [exact Hev|]. split.
  { apply with_defer_Exited with (code := 1%Z). exact Ho. }
  intros k s' Hw.
  apply bind_Exited. apply t_Run_Exited.
  unfold body. rewrite (with_defer_Exited _ _ _ 1%Z); apply Hsuite; cbn; exact Hw.
Qed.

End Suite.

(** ** Concrete runs *)

Section Runs.
Import Go mcp e2e host.

(** On the healthy host the whole run passes and no container is left. *)
Example healthy_run_leaves_nothing :
  let r := @go_test state host_world no_cases healthy in
  out r = Returned true
  ∧ subtests (events r) = ["TestE2E"; "Stdio"; "Initialize"; "HTTP"; "Initialize"]
  ∧ execs (events r) =
      [make_docker_build; docker_run_http "8080";
       Command "docker" ["stop"; short1]; docker_ps_test]
  ∧ live (world (st r)) = [].
Proof. vm_compute. repeat split. Qed.

(** C1.  On a host where everything works except that the server refuses
    the handshake over HTTP: the run builds the image, starts the HTTP
    container and ends by [os.Exit(1)] in the [Initialize] sub-test; it
    runs no [docker stop], no [docker kill] and no sweep, and the
    container it started is still running when the process is gone. *)
Theorem handshake_error_leaks_http_container :
  let r := @go_test state host_world no_cases http_handshake_fails in
  out r = Exited 1
  ∧ execs (events r) = [make_docker_build; docker_run_http "8080"]
  ∧ live (world (st r)) = [{| ID := id1; Image := testImage |}].
Proof. vm_compute. repeat split. Qed.

(** C2.  On a host with two running containers of the test image and
    none of another image: the sweep lists them and runs one
    [docker stop] with no container argument, the two identifiers on its
    standard input; the command fails, the sweep logs a warning and
    returns, and both containers are still running. *)
Theorem sweep_stops_no_container :
  let r := @cleanupAllTestContainers state host_world (mkT two_test_containers [] false) in
  out r = Returned tt
  ∧ failed (st r) = false
  ∧ events r =
      [ELog "Cleaning up all test containers...";
       EExec docker_ps_test;
       EExec {| Args := ["docker"; "stop"]; Dir := EmptyString;
                Stdin := short1 +:+ newline +:+ short2 +:+ newline |};
       ELog "Warning: failed to stop some test containers: requires at least 1 argument"]
  ∧ live (world (st r)) = live two_test_containers.
Proof. vm_compute. repeat split. Qed.

(** The batch stop the sweep is after, with the identifiers as
    arguments, does stop both containers on this host. *)
Example stop_with_arguments_stops_both :
  live (host_exec (Command "docker" ["stop"; short1; short2]) two_test_containers).2 = [].
Proof. vm_compute. reflexivity. Qed.

(** With no container of the test image the sweep lists and stops
    there. *)
Example sweep_none_found :
  let r := @cleanupAllTestContainers state host_world (mkT healthy [] false) in
  out r = Returned tt ∧ failed (st r) = false
  ∧ events r = [ELog "Cleaning up all test containers..."; EExec docker_ps_test;
                ELog "No test containers found to cleanup"].
Proof. vm_compute. repeat split. Qed.

(** The handshake refused over the pipe: the process exits in the first
    transport sub-test and the HTTP sub-test is never started. *)
Example stdio_handshake_error_ends_run :
  let r := @go_test state host_world no_cases stdio_handshake_fails in
  out r = Exited 1
  ∧ subtests (events r) = ["TestE2E"; "Stdio"; "Initialize"]
  ∧ execs (events r) = [make_docker_build].
Proof. vm_compute. repeat split. Qed.

(** A launch that prints nothing brings the whole run down: the HTTP
    sub-test panics and the process dies. *)
Example empty_launch_output_crashes_run :
  out (@go_test unit quiet_world no_cases tt) = Crashed.
Proof. vm_compute. reflexivity. Qed.


End Runs.

(** ** The theorems at concrete inputs *)

Section Instances.
Import Go mcp e2e host.

(** The handshake refused over the pipe, seen from [runTestSuite]. *)
Lemma runTestSuite_handshake_error_exits_witness :
  let c := StdioMCPClient "docker" [] ["run"; "-i"; "--rm"; testImage] in
  let s := mkT stdio_handshake_fails [] false in
  out (runTestSuite (W:=state) (H:=no_cases) (Some c) "Stdio" s) = Exited 1
  ∧ events (runTestSuite (W:=state) (H:=no_cases) (Some c) "Stdio" s) =
      [ERun "Initialize"; EInitialize c (initializeRequest (H:=no_cases));
       EPrint ("Failed to initialize: " +:+ Error (Err "transport error: EOF")); EExit 1].
Proof.
  intros c s.
  pose proof (runTestSuite_handshake_error_exits (W:=state) (H:=no_cases) c "Stdio"
                (stdio_cleanup (Some c)) s None (Err "transport error: EOF")
                stdio_handshake_fails eq_refl) as Hw.
  split; [exact (proj1 Hw) | exact (proj1 (proj2 Hw))].
Defined.

(** A launch that succeeds and prints nothing. *)
Lemma startHTTPContainer_short_output_panics_witness :
  out (startHTTPContainer (W:=unit) "8080" (mkT tt [] false))
  = Panic "runtime error: slice bounds out of range".
Proof.
  apply (startHTTPContainer_short_output_panics (W:=unit) "8080"
           (mkT tt [] false) EmptyString tt).
  - reflexivity.
  - cbn. lia.
Defined.




(** Stopping twice the container the healthy host starts first. *)
Lemma stopContainer_never_escalates_witness :
  let s := mkT two_test_containers [] false in
  let r1 := stopContainer short1 s in
  let r2 := stopContainer short1 (st r1) in
  (execs (events r1) = [Command "docker" ["stop"; short1]]
   ∧ out r1 = Returned tt ∧ failed (st r1) = false)
  ∧ (execs (events r2) = [Command "docker" ["stop"; short1];
                          Command "docker" ["kill"; short1]]
     ∧ out r2 = Returned tt ∧ failed (st r2) = false).
Proof.
  intros s r1 r2.
  pose proof (stopContainer_never_escalates "8080"
                (mkT healthy [] false) short1 s eq_refl) as [H1 H2].
  split.
  - destruct H1 as (Hc & Ho & Hf & _). split; [exact Hc|]. split; [exact Ho | exact Hf].
  - destruct H2 as (Hc & Ho & Hf & _). split; [exact Hc|]. split; [exact Ho | exact Hf].
Defined.

End Instances.


(** ** More on the policy_details handler *)

Section PolicyText.
Import Go mcp tools.

Lemma append_cons x (s t : string) : String x s +:+ t = String x (s +:+ t).
Proof. reflexivity. Qed.

Lemma append_nil_l (t : string) : EmptyString +:+ t = t.
Proof. reflexivity. Qed.

Lemma Contains_cons x (s sub : string) :
  Contains (String x s) sub = if String.prefix sub (String x s) then true else Contains s sub.
Proof. reflexivity. Qed.

Lemma append_assoc (a b c : string) : (a +:+ b) +:+ c = a +:+ (b +:+ c).
Proof.
  induction a as [|x a IH]; [reflexivity|]. rewrite !append_cons. f_equal. exact IH.
Qed.

Lemma append_nil_r (a : string) : a +:+ EmptyString = a.
Proof.
  induction a as [|x a IH]; [reflexivity|]. rewrite append_cons. f_equal. exact IH.
Qed.

Lemma prefix_nil (s : string) : String.prefix EmptyString s = true.
Proof. destruct s; reflexivity. Qed.

Lemma prefix_app (sub s t : string) :
  String.prefix sub s = true → String.prefix sub (s +:+ t) = true.
Proof.
  revert s. induction sub as [|x sub IH]; intros s; [intros _; apply prefix_nil|].
  destruct s as [|y s]; [discriminate|]. rewrite append_cons. simpl.
  destruct (ascii_dec x y); [apply IH | discriminate].
Qed.

Lemma prefix_self_app (sub t : string) : String.prefix sub (sub +:+ t) = true.
Proof.
  induction sub as [|x sub IH]; [apply prefix_nil|]. rewrite append_cons. simpl.
  destruct (ascii_dec x x); [exact IH | contradiction].
Qed.

Lemma Contains_prefix (s sub : string) : String.prefix sub s = true → Contains s sub = true.
Proof.
  intros Hp. destruct s as [|x s].
  - change (Contains EmptyString sub)
      with (if String.prefix sub EmptyString then true else false).
    by rewrite Hp.
  - rewrite Contains_cons. by rewrite Hp.
Qed.

Lemma Contains_self_app (sub t : string) : Contains (sub +:+ t) sub = true.
Proof. apply Contains_prefix, prefix_self_app. Qed.

Lemma Contains_app_l (s t sub : string) :
  Contains s sub = true → Contains (s +:+ t) sub = true.
Proof.
  induction s as [|x s IH].
  - intros Hc. destruct (String.prefix sub EmptyString) eqn:E.
    + apply Contains_prefix. destruct sub; [apply prefix_nil | discriminate E].
    + change (Contains EmptyString sub)
        with (if String.prefix sub EmptyString then true else false) in Hc.
      rewrite E in Hc. discriminate Hc.
  - rewrite append_cons, !Contains_cons.
    destruct (String.prefix sub (String x s)) eqn:E.
    + intros _. rewrite <- append_cons. by rewrite (prefix_app _ _ t E).
    + intros Hc. destruct (String.prefix sub (String x (s +:+ t))); [reflexivity | by apply IH].
Qed.

Lemma Contains_app_r (s t sub : string) :
  Contains t sub = true → Contains (s +:+ t) sub = true.
Proof.
  intros Ht. induction s as [|x s IH]; [exact Ht|].
  rewrite append_cons, Contains_cons.
  destruct (String.prefix sub (String x (s +:+ t))); [reflexivity | exact IH].
Qed.

Lemma Contains_join (l : list string) (x : string) : In x l → Contains (join l) x = true.
Proof.
  induction l as [|y l IH]; [intros []|]. intros [-> | Hin]; unfold join; simpl; fold (join l).
  - apply Contains_self_app.
  - apply Contains_app_r, IH, Hin.
Qed.

(** The loop over the included entries, from any accumulator. *)
Lemma includedStep_fold id included policyList moduleList :
  fold_left (includedStep id) included (policyList, moduleList) =
    (policyList +:+ join (map policyEntry (included_of "policies" included)),
     moduleList +:+ join (map (moduleBlock id) (included_of "policy-modules" included))).
Proof.
  revert policyList moduleList. induction included as [|p included IH]; intros pl ml.
  { cbn. by rewrite !append_nil_r. }
  cbn [fold_left]. unfold includedStep at 2. rewrite IH. unfold included_of.
  rewrite !filter_cons.
  destruct (String.eqb (client.Type_ p) "policy-modules") eqn:Em;
    destruct (String.eqb (client.Type_ p) "policies") eqn:Ep;
    repeat (destruct (decide _) as [Hd|Hd]; try discriminate Hd; try (exfalso; by apply Hd));
    cbn [map join fold_right]; by rewrite ?append_assoc.
Qed.

(** X1.  The two lists the handler builds from the included entries of a
    policy document: the policy list is the concatenation of the entries of
    the included items of type [policies], the module list that of the
    module blocks of the items of type [policy-modules], both in the order
    of the document; items of any other type add nothing. *)
Theorem included_lists_by_type id (included : list client.PolicyIncluded) :
  fold_left (includedStep id) included (EmptyString, EmptyString) =
    (join (map policyEntry (included_of "policies" included)),
     join (map (moduleBlock id) (included_of "policy-modules" included))).
Proof. apply includedStep_fold. Qed.

Context `{Registry}.

Lemma policyData_eq id details :
  policyData id details =
    "## Policy details about " +:+ id +:+ " " +:+ newline +:+ newline
    +:+ ExtractReadme (client.Readme details)
    +:+ "---" +:+ newline
    +:+ "## Usage" +:+ newline +:+ newline
    +:+ "Generate the content for a HashiCorp Configuration Language (HCL) file named policies.hcl. This file should define a set of policies. For each policy provided, create a distinct policy block using the following template." +:+ newline
    +:+ newline +:+ backtick +:+ backtick +:+ backtick +:+ "hcl" +:+ newline
    +:+ hclTemplate (join (map (moduleBlock id) (included_of "policy-modules"
                                                   (client.Included details)))) id
    +:+ newline +:+ backtick +:+ backtick +:+ backtick +:+ newline
    +:+ "Available policies with SHA for " +:+ id +:+ " are: " +:+ newline +:+ newline
    +:+ join (map policyEntry (included_of "policies" (client.Included details))).
Proof. unfold policyData. rewrite includedStep_fold. reflexivity. Qed.

Lemma Contains_policyData_policy id details a :
  In a (included_of "policies" (client.Included details)) →
  Contains (policyData id details) (policyEntry a) = true.
Proof.
  intros Hin. rewrite policyData_eq.
  repeat apply Contains_app_r.
  apply Contains_join, in_map, Hin.
Qed.

Lemma Contains_policyData_module id details a :
  In a (included_of "policy-modules" (client.Included details)) →
  Contains (policyData id details) (moduleBlock id a) = true.
Proof.
  intros Hin. rewrite policyData_eq.
  repeat lazymatch goal with
         | |- Contains (hclTemplate _ _ +:+ _) _ = true => fail
         | |- _ => apply Contains_app_r
         end.
  apply Contains_app_l.
  unfold hclTemplate. apply Contains_app_r, Contains_app_l.
  apply Contains_join, in_map, Hin.
Qed.

(** X2.  The text of a successful answer lists every included policy and
    every included policy module: for each included item of type [policies]
    it contains the item's name and checksum lines, and for each item of
    type [policy-modules] the module block with the item's name, source URL
    and checksum. *)
Theorem policyData_lists_included id details (p : client.PolicyIncluded) :
  In p (client.Included details) →
  (client.Type_ p = "policies" →
   Contains (policyData id details) (policyEntry (client.Attributes p)) = true)
  ∧ (client.Type_ p = "policy-modules" →
     Contains (policyData id details) (moduleBlock id (client.Attributes p)) = true).
Proof.
  intros Hin. split; intros Ht.
  - apply Contains_policyData_policy. unfold included_of. apply in_map.
    apply list_elem_of_In, list_elem_of_filter. split; [|by apply list_elem_of_In].
    rewrite Ht. reflexivity.
  - apply Contains_policyData_module. unfold included_of. apply in_map.
    apply list_elem_of_In, list_elem_of_filter. split; [|by apply list_elem_of_In].
    rewrite Ht. reflexivity.
Qed.

End PolicyText.

(** ** Cleanups: what is registered and what runs *)

Section Cleanups.
Import Go mcp e2e.
Context {W : Type} `{!World W} `{!Fixtures}.

Lemma keeps_ret {A} (a : A) : keeps_cleanups (mret a : test W A).
Proof. intros s. reflexivity. Qed.

Lemma keeps_bind {A B} (m : test W A) (k : A → test W B) :
  keeps_cleanups m → (∀ a, keeps_cleanups (k a)) → keeps_cleanups (m ≫= k).
Proof.
  intros Hm Hk s. unfold mbind, test_mbind, test_bind.
  destruct (out (m s)); cbn; rewrite ?Hk; apply Hm.
Qed.

(** After a bind whose second half keeps the cleanups, the cleanups are
    those the first half left. *)
Lemma bind_cleanups {A B} (m : test W A) (k : A → test W B) s :
  (∀ a, keeps_cleanups (k a)) → cleanups (st ((m ≫= k) s)) = cleanups (st (m s)).
Proof.
  intros Hk. unfold mbind, test_mbind, test_bind.
  destruct (out (m s)); cbn; rewrite ?Hk; reflexivity.
Qed.

(** The events of a bind: those of its first half, then those of its
    second half when the first returned. *)
Lemma bind_events {A B} (m : test W A) (k : A → test W B) s :
  events ((m ≫= k) s) =
    (events (m s) ++ match out (m s) with
                     | Returned a => events (k a (st (m s)))
                     | _ => []
                     end)%list.
Proof.
  unfold mbind, test_mbind, test_bind.
  destruct (out (m s)); cbn; by rewrite ?app_nil_r.
Qed.

(** How a bind ends. *)
Lemma out_bind {A B} (m : test W A) (k : A → test W B) s :
  out ((m ≫= k) s) =
    match out (m s) with
    | Returned a => out (k a (st (m s)))
    | FailNow => FailNow
    | Panic msg => Panic msg
    | Crashed => Crashed
    | Exited code => Exited code
    end.
Proof. unfold mbind, test_mbind, test_bind. by destruct (out (m s)). Qed.

(** What follows a [FailNow] does not run. *)
Lemma bind_FailNow {A B} (m : test W A) (k : A → test W B) s :
  out (m s) = FailNow →
  out ((m ≫= k) s) = FailNow ∧ st ((m ≫= k) s) = st (m s)
  ∧ events ((m ≫= k) s) = events (m s).
Proof. intros Hm. unfold mbind, test_mbind, test_bind. rewrite Hm. repeat split. Qed.

(** The state after a bind whose first half returned is the state after
    its second half. *)
Lemma bind_st_Returned {A B} (m : test W A) (k : A → test W B) s a :
  out (m s) = Returned a → st ((m ≫= k) s) = st (k a (st (m s))).
Proof. intros Hm. unfold mbind, test_mbind, test_bind. by rewrite Hm. Qed.

(** A sub-test whose body stops by [FailNow] with no cleanup registered:
    the parent goes on, marked failed. *)
Lemma t_Run_FailNow name (f : test W unit) s :
  out (f (mkT (world s) [] false)) = FailNow →
  cleanups (st (f (mkT (world s) [] false))) = [] →
  out (t_Run name f s) = Returned (negb (failed (st (f (mkT (world s) [] false)))))
  ∧ failed (st (t_Run name f s)) = failed s || failed (st (f (mkT (world s) [] false)))
  ∧ events (t_Run name f s) = ERun name :: events (f (mkT (world s) [] false)).
Proof.
  intros Ho Hc. unfold t_Run. rewrite Ho, Hc. cbn [runCleanup out st events failed].
  rewrite app_nil_r, orb_false_r. repeat split.
Qed.

Lemma keeps_emit e : keeps_cleanups (emit e : test W unit).
Proof. intros s. reflexivity. Qed.

Lemma keeps_call {A} (f : W → A * W) : keeps_cleanups (call f).
Proof. intros s. unfold call. by destruct (f (world s)). Qed.

Lemma keeps_t_FailNow {A} : keeps_cleanups (t_FailNow : test W A).
Proof. intros s. reflexivity. Qed.

Lemma keeps_panic {A} msg : keeps_cleanups (panic msg : test W A).
Proof. intros s. reflexivity. Qed.

Lemma keeps_os_Exit {A} code : keeps_cleanups (os_Exit code : test W A).
Proof. intros s. reflexivity. Qed.

Lemma keeps_harmless {A} (m : test W A) : harmless m → keeps_cleanups m.
Proof. intros Hm s. apply Hm. Qed.

Lemma keeps_require_fail {A} msg : keeps_cleanups (require_fail msg : test W A).
Proof. apply keeps_bind; [apply keeps_emit | intros; apply keeps_t_FailNow]. Qed.

Lemma keeps_require_NoError err msg : keeps_cleanups (require_NoError err msg : test W unit).
Proof. destruct err; [apply keeps_require_fail | apply keeps_ret]. Qed.

Lemma keeps_require_Error err msg : keeps_cleanups (require_Error err msg : test W unit).
Proof. destruct err; [apply keeps_ret | apply keeps_require_fail]. Qed.

Lemma keeps_require_True b msg : keeps_cleanups (require_True b msg : test W unit).
Proof. destruct b; [apply keeps_ret | apply keeps_require_fail]. Qed.

Lemma keeps_require_False b msg : keeps_cleanups (require_False b msg : test W unit).
Proof. destruct b; [apply keeps_require_fail | apply keeps_ret]. Qed.

Lemma keeps_require_Len {A} (l : list A) n msg :
  keeps_cleanups (require_Len l n msg : test W unit).
Proof. unfold require_Len. destruct (_ =? _)%nat; [apply keeps_ret | apply keeps_require_fail]. Qed.

Lemma keeps_require_Equal a b : keeps_cleanups (require_Equal a b : test W unit).
Proof. unfold require_Equal. destruct (String.eqb a b); [apply keeps_ret | apply keeps_require_fail]. Qed.

Lemma keeps_require_Contains a b msg : keeps_cleanups (require_Contains a b msg : test W unit).
Proof. unfold require_Contains. destruct (Contains a b); [apply keeps_ret | apply keeps_require_fail]. Qed.

Lemma keeps_require_NotContains a b msg :
  keeps_cleanups (require_NotContains a b msg : test W unit).
Proof.
  unfold require_NotContains. destruct (Contains a b); [apply keeps_require_fail | apply keeps_ret].
Qed.

Lemma keeps_t_Log msg : keeps_cleanups (t_Log msg : test W unit).
Proof. apply keeps_emit. Qed.

Lemma keeps_run_cmd c : keeps_cleanups (run_cmd c : test W _).
Proof. apply keeps_harmless, harmless_run_cmd. Qed.

Lemma keeps_startHTTPContainer port : keeps_cleanups (startHTTPContainer port : test W string).
Proof.
  unfold startHTTPContainer.
  apply keeps_bind; [apply keeps_run_cmd | intros [output err]].
  apply keeps_bind; [apply keeps_require_NoError | intros _].
  destruct (slice_to 12 output); [|apply keeps_panic].
  apply keeps_bind; [apply keeps_t_Log | intros; apply keeps_ret].
Qed.

Lemma keeps_waitLoop n baseURL : keeps_cleanups (waitLoop n baseURL : test W unit).
Proof.
  induction n as [|n IH]; intros s; [reflexivity|].
  rewrite waitLoop_S. destruct (http_Get _ (world s)) as [r w1].
  destruct (is_ready r); [reflexivity|]. cbn [st]. by rewrite IH.
Qed.

Lemma keeps_t_Run name (f : test W unit) : keeps_cleanups (t_Run name f).
Proof.
  intros s. unfold t_Run. destruct (out (f _)); try reflexivity;
    by destruct (runCleanup _ _).
Qed.

Lemma keeps_for_range {A} (l : list A) (body : A → test W unit) :
  (∀ x, keeps_cleanups (body x)) → keeps_cleanups (for_range l body).
Proof.
  intros Hb. induction l as [|x l IH]; [apply keeps_ret|].
  cbn [for_range]. apply keeps_bind; [apply Hb | intros; exact IH].
Qed.

Lemma keeps_toolTable transportName tool check client table :
  keeps_cleanups (toolTable transportName tool check client table : test W unit).
Proof.
  apply keeps_for_range. intros testCase.
  apply keeps_bind; [apply keeps_t_Run | intros; apply keeps_ret].
Qed.

Lemma keeps_runTestSuite client transportName :
  keeps_cleanups (runTestSuite client transportName : test W unit).
Proof.
  unfold runTestSuite.
  apply keeps_bind; [apply keeps_t_Run | intros _].
  repeat (apply keeps_bind; [apply keeps_toolTable | intros _]).
  apply keeps_toolTable.
Qed.

Lemma keeps_run_cleanup_closure c : keeps_cleanups (run_cleanup_closure c : test W unit).
Proof.
  destruct c as [[c|]|[c|]]; cbn;
    try (apply keeps_bind; [apply keeps_emit | intros; apply keeps_call]).
  - apply keeps_panic.
  - apply keeps_ret.
Qed.

Lemma keeps_with_defer {A} (d : test W unit) (body : test W A) :
  keeps_cleanups d → keeps_cleanups body → keeps_cleanups (with_defer d body).
Proof.
  intros Hd Hb s. unfold with_defer.
  destruct (out (body s)); cbn; rewrite ?Hd; apply Hb.
Qed.

(** The cleanups after the HTTP factory, port known. *)
Lemma createHTTPClient_on_cleanups port (s : T W) :
  cleanups (st (createHTTPClient_on port s)) =
    match out (startHTTPContainer port s) with
    | Returned containerID => stopContainer_cleanup containerID :: cleanups s
    | _ => cleanups s
    end.
Proof.
  pose proof (keeps_startHTTPContainer port s) as Hs.
  assert (∀ containerID : string,
            keeps_cleanups
              (waitForServer ("http://localhost:" +:+ port);;
               '(client, err) ← (emit (ENewStreamableHttpClient
                                         ("http://localhost:" +:+ port +:+ "/mcp"));;
                                 call (NewStreamableHttpClient
                                         ("http://localhost:" +:+ port +:+ "/mcp")));
               require_NoError err "expected to create HTTP client successfully";;
               mret (client, http_cleanup client) : test W _)) as Hrest.
  { intros _. apply keeps_bind; [apply keeps_waitLoop | intros _].
    apply keeps_bind.
    { apply keeps_bind; [apply keeps_emit | intros; apply keeps_call]. }
    intros [client err].
    apply keeps_bind; [apply keeps_require_NoError | intros; apply keeps_ret]. }
  unfold createHTTPClient_on.
  destruct (out (startHTTPContainer port s)) as [containerID| | | |] eqn:Hstart.
  - rewrite (bind_st_Returned _ _ _ _ Hstart).
    rewrite bind_cleanups by (intros _; apply (Hrest containerID)).
    unfold t_Cleanup. cbn [st cleanups]. by rewrite Hs.
  - destruct (bind_FailNow (startHTTPContainer port)
                (λ containerID, t_Cleanup (stopContainer_cleanup containerID);;
                   waitForServer ("http://localhost:" +:+ port);;
                   '(client, err) ← (emit (ENewStreamableHttpClient
                                             ("http://localhost:" +:+ port +:+ "/mcp"));;
                                     call (NewStreamableHttpClient
                                             ("http://localhost:" +:+ port +:+ "/mcp")));
                   require_NoError err "expected to create HTTP client successfully";;
                   mret (client, http_cleanup client)) s Hstart) as (_ & -> & _).
    exact Hs.
  - unfold mbind at 1. unfold test_mbind at 1. unfold test_bind at 1. rewrite Hstart. exact Hs.
  - unfold mbind at 1. unfold test_mbind at 1. unfold test_bind at 1. rewrite Hstart. exact Hs.
  - unfold mbind at 1. unfold test_mbind at 1. unfold test_bind at 1. rewrite Hstart. exact Hs.
Qed.

Lemma createHTTPClient_cleanups (s : T W) :
  cleanups (st (createHTTPClient s)) =
    match out (startHTTPContainer (port_of (world s)) s) with
    | Returned containerID => stopContainer_cleanup containerID :: cleanups s
    | _ => cleanups s
    end.
Proof. rewrite createHTTPClient_eq. cbn [st]. apply createHTTPClient_on_cleanups. Qed.

(** X3.  [createHTTPClient] registers the stop of the container it
    started, whatever happens next: when [startHTTPContainer] returned an
    identifier, the stop of that identifier is the last cleanup registered on
    the test when the factory ends, also when the readiness wait times out
    or the client cannot be constructed; when no container was started
    nothing is registered. *)
Theorem createHTTPClient_registers_stop (s : T W) :
  cleanups (st (createHTTPClient s)) =
    match out (startHTTPContainer (port_of (world s)) s) with
    | Returned containerID => stopContainer_cleanup containerID :: cleanups s
    | _ => cleanups s
    end.
Proof. apply createHTTPClient_cleanups. Qed.

(** The events of a sub-test whose body does not exit the process: its
    name, the events of the body, the events of its cleanups. *)
Lemma t_Run_events name (f : test W unit) s :
  (∀ code, out (f (mkT (world s) [] false)) ≠ Exited code) →
  events (t_Run name f s) =
    (ERun name :: events (f (mkT (world s) [] false))
     ++ (runCleanup (cleanups (st (f (mkT (world s) [] false))))
           (mkT (world (st (f (mkT (world s) [] false)))) []
                (failed (st (f (mkT (world s) [] false)))))).2)%list.
Proof.
  intros Hne. unfold t_Run.
  destruct (out (f _)) as [a| | | |code] eqn:E;
    try (by destruct (runCleanup _ _)).
  exfalso. by apply (Hne code).
Qed.

Lemma execs_app tr1 tr2 : execs (tr1 ++ tr2) = (execs tr1 ++ execs tr2)%list.
Proof. apply omap_app. Qed.


End Cleanups.

(** ** The suite: which sub-tests run *)

Section SuiteOrder.
Import Go mcp e2e.
Context {W : Type} `{!World W} `{!Fixtures}.

Lemma emits_require_fail {A} P msg :
  (∀ m, P (EError m)) → emits P (require_fail msg : test W A).
Proof. intros HP. apply emits_bind; [apply emits_emit, HP | intros; apply emits_t_FailNow]. Qed.

Ltac no_run_steps :=
  repeat first
    [ apply emits_ret | apply emits_t_FailNow | apply emits_panic | apply emits_call
    | apply emits_emit; reflexivity
    | apply emits_require_fail; reflexivity
    | apply emits_bind; [ | intros ? ]
    | match goal with
      | |- emits _ (if ?b then _ else _) => destruct b
      | |- emits _ (match ?x with _ => _ end) => destruct x
      end
    | progress unfold require_NoError, require_Error, require_True, require_False,
        require_Len, require_Equal, require_Contains, require_NotContains, t_Log, t_Fatal,
        deref, index0 ].

Ltac keeps_steps :=
  repeat first
    [ apply keeps_ret | apply keeps_t_FailNow | apply keeps_panic | apply keeps_call
    | apply keeps_emit | apply keeps_require_fail
    | apply keeps_require_NoError | apply keeps_require_Error | apply keeps_require_True
    | apply keeps_require_False | apply keeps_require_Len | apply keeps_require_Equal
    | apply keeps_require_Contains | apply keeps_require_NotContains | apply keeps_t_Log
    | apply keeps_bind; [ | intros ? ]
    | match goal with
      | |- keeps_cleanups (if ?b then _ else _) => destruct b
      | |- keeps_cleanups (match ?x with _ => _ end) => destruct x
      end
    | progress unfold t_Fatal, deref, index0 ].

Lemma no_run_client_Initialize client request :
  emits no_run (client_Initialize client request : test W _).
Proof. unfold client_Initialize. no_run_steps. Qed.

Lemma no_run_client_CallTool client request :
  emits no_run (client_CallTool client request : test W _).
Proof. unfold client_CallTool. no_run_steps. Qed.

Lemma no_run_ensureClientInitialized client :
  emits no_run (ensureClientInitialized client : test W unit).
Proof.
  unfold ensureClientInitialized.
  apply emits_bind; [apply no_run_client_Initialize | intros [result err]]. no_run_steps.
Qed.

Lemma no_run_initializeSubtest client :
  emits no_run (initializeSubtest client : test W unit).
Proof.
  unfold initializeSubtest, log_Fatalf.
  apply emits_bind; [apply no_run_client_Initialize | intros [result err]]. no_run_steps.
Qed.

Lemma keeps_client_Initialize client request :
  keeps_cleanups (client_Initialize client request : test W _).
Proof. unfold client_Initialize. keeps_steps. Qed.

Lemma keeps_client_CallTool client request :
  keeps_cleanups (client_CallTool client request : test W _).
Proof. unfold client_CallTool. keeps_steps. Qed.

Lemma keeps_ensureClientInitialized client :
  keeps_cleanups (ensureClientInitialized client : test W unit).
Proof.
  unfold ensureClientInitialized.
  apply keeps_bind; [apply keeps_client_Initialize | intros [result err]]. keeps_steps.
Qed.

Lemma keeps_initializeSubtest client :
  keeps_cleanups (initializeSubtest client : test W unit).
Proof.
  unfold initializeSubtest, log_Fatalf.
  apply keeps_bind; [apply keeps_client_Initialize | intros [result err]]. keeps_steps.
Qed.

(** The four checks start no sub-test and register no cleanup. *)
Definition quiet_check
    (check : TestCase → option CallToolResult → option error → test W unit) : Prop :=
  ∀ testCase response err,
    emits no_run (check testCase response err)
    ∧ keeps_cleanups (check testCase response err).

Lemma quiet_resolveProviderDocID_check : quiet_check resolveProviderDocID_check.
Proof.
  intros testCase response err. unfold resolveProviderDocID_check.
  split; [no_run_steps | keeps_steps].
Qed.

Lemma quiet_getProviderDocs_check : quiet_check getProviderDocs_check.
Proof.
  intros testCase response err. unfold getProviderDocs_check.
  split; [no_run_steps | keeps_steps].
Qed.

Lemma quiet_searchModules_check : quiet_check searchModules_check.
Proof.
  intros testCase response err. unfold searchModules_check.
  split; [no_run_steps | keeps_steps].
Qed.

Lemma quiet_moduleDetails_check : quiet_check moduleDetails_check.
Proof.
  intros testCase response err. unfold moduleDetails_check.
  split; [no_run_steps | keeps_steps].
Qed.

Lemma quiet_toolSubtest tool check client testCase :
  quiet_check check →
  emits no_run (toolSubtest tool check client testCase)
  ∧ keeps_cleanups (toolSubtest tool check client testCase).
Proof.
  intros Hq. unfold toolSubtest. split.
  - apply emits_bind; [apply no_run_ensureClientInitialized | intros _].
    apply emits_bind; [apply emits_emit; reflexivity | intros _].
    apply emits_bind; [apply emits_emit; reflexivity | intros _].
    apply emits_bind; [apply no_run_client_CallTool | intros [response err]]. apply Hq.
  - apply keeps_bind; [apply keeps_ensureClientInitialized | intros _].
    apply keeps_bind; [apply keeps_t_Log | intros _].
    apply keeps_bind; [apply keeps_t_Log | intros _].
    apply keeps_bind; [apply keeps_client_CallTool | intros [response err]]. apply Hq.
Qed.

Lemma subtests_app tr1 tr2 : subtests (tr1 ++ tr2) = (subtests tr1 ++ subtests tr2)%list.
Proof. apply omap_app. Qed.

Lemma subtests_no_run tr : Forall no_run tr → subtests tr = [].
Proof.
  induction 1 as [|e tr He _ IH]; [reflexivity|].
  unfold no_run in He. destruct e; try discriminate He; exact IH.
Qed.

(** A sub-test whose body starts no sub-test and registers no cleanup
    shows in the trace as its own name only. *)
Lemma subtests_t_Run name (f : test W unit) s b :
  emits no_run f → keeps_cleanups f →
  out (t_Run name f s) = Returned b →
  subtests (events (t_Run name f s)) = [name].
Proof.
  intros He Hk Hret.
  rewrite t_Run_events.
  - rewrite Hk. cbn [runCleanup snd cleanups]. rewrite app_nil_r.
    change (ERun name :: ?tr) with ([ERun name] ++ tr)%list.
    rewrite subtests_app, (subtests_no_run _ (He _)). reflexivity.
  - intros code Hc. apply (t_Run_Exited name) in Hc as [Hc _]. congruence.
Qed.

Lemma subtests_toolTable transportName tool check client table s :
  quiet_check check →
  out (toolTable transportName tool check client table s) = Returned tt →
  subtests (events (toolTable transportName tool check client table s))
  = map (case_name transportName tool) table.
Proof.
  intros Hq. revert s. induction table as [|testCase table IH]; intros s; [reflexivity|].
  unfold toolTable. cbn [for_range]. fold (toolTable transportName tool check client table).
  intros Hret.
  apply bind_Returned in Hret as ([] & Hhead & Htail & ->).
  apply bind_Returned in Hhead as (b & Hrun & _ & Hev).
  rewrite subtests_app, Hev, subtests_app. cbn [map events subtests omap app].
  destruct (quiet_toolSubtest tool check client testCase Hq) as [He Hk].
  rewrite (subtests_t_Run _ _ _ b He Hk Hrun). cbn [app]. f_equal.
  apply IH. exact Htail.
Qed.

(** X5.  A suite that returns has started the [Initialize] sub-test and
    then exactly one sub-test per row of the four tables, named
    transport_tool/row, in the order resolveProviderDocID,
    getProviderDocs, searchModules, moduleDetails and in the order of each
    table: a row that fails does not keep the rows after it from running. *)
Theorem runTestSuite_runs_every_row client transportName (s : T W) :
  out (runTestSuite client transportName s) = Returned tt →
  subtests (events (runTestSuite client transportName s)) =
    ("Initialize"
     :: map (case_name transportName "resolveProviderDocID") providerTestCases
     ++ map (case_name transportName "getProviderDocs") providerDocsTestCases
     ++ map (case_name transportName "searchModules") searchModulesTestCases
     ++ map (case_name transportName "moduleDetails") moduleDetailsTestCases)%list.
Proof.
  unfold runTestSuite. intros Hret.
  apply bind_Returned in Hret as (b & Hinit & Hret & ->).
  apply bind_Returned in Hret as ([] & H1 & Hret & ->).
  apply bind_Returned in Hret as ([] & H2 & Hret & ->).
  apply bind_Returned in Hret as ([] & H3 & H4 & ->).
  rewrite !subtests_app.
  rewrite (subtests_t_Run _ _ _ b (no_run_initializeSubtest client)
             (keeps_initializeSubtest client) Hinit).
  rewrite (subtests_toolTable _ _ _ _ _ _ quiet_resolveProviderDocID_check H1).
  rewrite (subtests_toolTable _ _ _ _ _ _ quiet_getProviderDocs_check H2).
  rewrite (subtests_toolTable _ _ _ _ _ _ quiet_searchModules_check H3).
  rewrite (subtests_toolTable _ _ _ _ _ _ quiet_moduleDetails_check H4).
  reflexivity.
Qed.

(** X6.  A tool sub-test whose handshake fails makes no tool call and
    fails alone: the sub-test logs the failure and stops by [t.Fatalf], its
    parent is marked failed and goes on. *)
Theorem tool_subtest_handshake_error name tool check c testCase (s : T W) result e w :
  Initialize c initializeRequest (world s) = ((result, Some e), w) →
  out (t_Run name (toolSubtest tool check (Some c) testCase) s) = Returned false
  ∧ failed (st (t_Run name (toolSubtest tool check (Some c) testCase) s)) = true
  ∧ events (t_Run name (toolSubtest tool check (Some c) testCase) s) =
      [ERun name; EInitialize c initializeRequest;
       ELog ("Failed to initialize MCP client: " +:+ Error e)].
Proof.
  intros Hinit.
  assert (out (ensureClientInitialized (Some c) (mkT (world s) [] false)) = FailNow
          ∧ st (ensureClientInitialized (Some c) (mkT (world s) [] false)) = mkT w [] true
          ∧ events (ensureClientInitialized (Some c) (mkT (world s) [] false)) =
              [EInitialize c initializeRequest;
               ELog ("Failed to initialize MCP client: " +:+ Error e)]) as (Ho & Hs & Hev).
  { unfold ensureClientInitialized, client_Initialize, t_Fatal, t_Log, t_FailNow,
      mbind, test_mbind, test_bind, emit, call.
    cbn. rewrite Hinit. cbn. repeat split. }
  unfold toolSubtest.
  destruct (bind_FailNow (ensureClientInitialized (Some c))
              (λ _, t_Log ("TOOL " +:+ tool +:+ " " +:+ TestDescription testCase);;
                    t_Log "Test payload: %v";;
                    '(response, err) ← client_CallTool (Some c)
                      {| Name := tool; Arguments := TestPayload testCase |};
                    check testCase response err)
              (mkT (world s) [] false) Ho) as (Ho' & Hs' & Hev').
  destruct (t_Run_FailNow name _ s Ho') as (Hro & Hrf & Hre).
  { by rewrite Hs', Hs. }
  rewrite Hro, Hrf, Hre, Hs', Hev', Hs, Hev. cbn [failed negb].
  rewrite orb_true_r. repeat split.
Qed.

(** X7.  The handshake is accepted, by [ensureClientInitialized] and by
    the [Initialize] sub-test alike, exactly when the call returns no error
    and a result whose server name is terraform-mcp-server. *)
Theorem handshake_accepted_iff c (s : T W) :
  let accepted :=
    ∃ result w, Initialize c initializeRequest (world s) = ((Some result, None), w)
                ∧ ImplName (ServerInfo result) = "terraform-mcp-server" in
  (out (ensureClientInitialized (Some c) s) = Returned tt ↔ accepted)
  ∧ (out (initializeSubtest (Some c) s) = Returned tt ↔ accepted).
Proof.
  cbv zeta.
  destruct (Initialize c initializeRequest (world s)) as [[res err] w] eqn:Hinit.
  assert (out (ensureClientInitialized (Some c) s) =
            match err, res with
            | Some _, _ => FailNow
            | None, None =>
                Panic "runtime error: invalid memory address or nil pointer dereference"
            | None, Some result =>
                if String.eqb "terraform-mcp-server" (ImplName (ServerInfo result))
                then Returned tt else FailNow
            end) as Hens.
  { unfold ensureClientInitialized, client_Initialize, t_Fatal, t_Log, t_FailNow, deref,
      panic, mbind, test_mbind, test_bind, emit, call.
    cbn -[require_Equal String.eqb]. rewrite Hinit.
    destruct err as [e|], res as [result|]; cbn -[require_Equal String.eqb];
      try reflexivity.
    unfold require_Equal. destruct (String.eqb _ _); reflexivity. }
  assert (out (initializeSubtest (Some c) s) =
            match err, res with
            | Some _, _ => Exited 1
            | None, None =>
                Panic "runtime error: invalid memory address or nil pointer dereference"
            | None, Some result =>
                if String.eqb "terraform-mcp-server" (ImplName (ServerInfo result))
                then Returned tt else FailNow
            end) as Hsub.
  { unfold initializeSubtest, client_Initialize, log_Fatalf, os_Exit, deref,
      panic, mbind, test_mbind, test_bind, emit, call.
    cbn -[require_Equal String.eqb]. rewrite Hinit.
    destruct err as [e|], res as [result|]; cbn -[require_Equal String.eqb];
      try reflexivity.
    unfold require_Equal. destruct (String.eqb _ _); reflexivity. }
  rewrite Hens, Hsub.
  destruct err as [e|], res as [result|];
    try (split; (split; [intros Hx; discriminate Hx
                        | intros (r & w' & Heq & _); discriminate Heq])).
  destruct (String.eqb "terraform-mcp-server" (ImplName (ServerInfo result))) eqn:E.
  - apply String.eqb_eq in E.
    split; (split; [intros _; exists result, w; split; [reflexivity | by rewrite <- E]
                   | reflexivity]).
  - apply String.eqb_neq in E.
    split; (split; [intros Hx; discriminate Hx
                   | intros (r & w' & [= <- <-] & Hn); exfalso; apply E; by rewrite Hn]).
Qed.

End SuiteOrder.

(** ** The factory, the build and the sweep *)

Section Factory.
Import Go mcp e2e.
Context {W : Type} `{!World W} `{!Fixtures}.

Lemma emits_waitLoop_of P n baseURL :
  (∀ url, P (EGet url)) → P EBodyClose → (∀ d, P (ESleep d)) → (∀ msg, P (ELog msg)) →
  emits P (waitLoop n baseURL : test W unit).
Proof.
  intros Hget Hclose Hsleep Hlog. induction n as [|n IH]; intros s.
  { repeat constructor. apply Hlog. }
  rewrite waitLoop_S. destruct (http_Get _ (world s)) as [r w1].
  destruct (is_ready r).
  - repeat constructor; auto.
  - cbn [events]. apply Forall_app. split; [|apply IH].
    unfold attempt_events. constructor; [apply Hget|].
    destruct (get_resp r); repeat constructor; auto.
Qed.

Lemma emits_startHTTPContainer_of P port :
  (∀ c, P (EExec c)) → (∀ msg, P (ELog msg)) → (∀ msg, P (EError msg)) →
  emits P (startHTTPContainer port : test W string).
Proof.
  intros Hexec Hlog Herr. unfold startHTTPContainer, run_cmd, t_Log.
  apply emits_bind.
  { apply emits_bind; [apply emits_emit, Hexec | intros; apply emits_call]. }
  intros [output err]. apply emits_bind; [apply emits_require_NoError, Herr | intros _].
  destruct (slice_to 12 output); [|apply emits_panic].
  apply emits_bind; [apply emits_emit, Hlog | intros; apply emits_ret].
Qed.

(** X8.  The HTTP factory constructs the protocol client only after the
    health endpoint answered 200: whenever its trace holds the construction
    of the client, the container was started and one of the 30 health
    requests that followed the launch was ready. *)
Theorem client_constructed_only_when_ready (s : T W) url :
  In (ENewStreamableHttpClient url) (events (createHTTPClient s)) →
  ∃ containerID k,
    out (startHTTPContainer (port_of (world s)) s) = Returned containerID
    ∧ first_ready (polls 30 (("http://localhost:" +:+ port_of (world s)) +:+ "/health")
                     (world (st (startHTTPContainer (port_of (world s)) s)))) = Some k.
Proof.
  rewrite createHTTPClient_eq. cbv zeta. cbn [events].
  intros [Hlog | Hin]; [discriminate Hlog|].
  set (port := port_of (world s)) in *.
  assert (∀ tr, Forall (λ e, is_new_http_client e = false) tr →
                ¬ In (ENewStreamableHttpClient url) tr) as Hnot.
  { intros tr Hall Hx. rewrite Forall_forall in Hall.
    apply list_elem_of_In, Hall in Hx. discriminate Hx. }
  unfold createHTTPClient_on in Hin. rewrite bind_events in Hin.
  apply in_app_or in Hin as [Hin | Hin].
  { exfalso. revert Hin. apply Hnot. by apply emits_startHTTPContainer_of. }
  destruct (out (startHTTPContainer port s)) as [containerID| | | |] eqn:Hstart;
    try (destruct Hin; fail).
  exists containerID.
  rewrite bind_events in Hin. cbn [t_Cleanup events out st app] in Hin.
  rewrite bind_events in Hin.
  apply in_app_or in Hin as [Hin | Hin].
  { exfalso. revert Hin. apply Hnot. by apply emits_waitLoop_of. }
  pose proof (waitLoop_spec 30 ("http://localhost:" +:+ port)
                (mkT (world (st (startHTTPContainer port s)))
                     (stopContainer_cleanup containerID
                      :: cleanups (st (startHTTPContainer port s)))
                     (failed (st (startHTTPContainer port s))))) as Hwait.
  cbv zeta in Hwait. cbn [world] in Hwait.
  fold (waitForServer (W:=W) ("http://localhost:" +:+ port)) in Hwait.
  destruct (first_ready _) as [k|]; [by exists k|].
  destruct Hwait as (Ho & _). rewrite Ho in Hin. destruct Hin.
Qed.

(** X9.  When the image cannot be built the run stops there: [TestE2E]
    fails, no sub-test is started, no container is launched and, the sweep
    being registered after the build, no sweep runs. *)
Theorem build_failure_aborts_run (w : W) output e w' :
  exec {| Args := ["make"; "VERSION=test-e2e"; "docker-build"]; Dir := "..";
          Stdin := EmptyString |} w = ((output, Some e), w') →
  out (go_test w) = Returned false
  ∧ world (st (go_test w)) = w'
  ∧ events (go_test w) =
      [ERun "TestE2E"; ELog "Building Docker image for e2e tests...";
       EExec {| Args := ["make"; "VERSION=test-e2e"; "docker-build"]; Dir := "..";
                Stdin := EmptyString |};
       EError ("expected to build Docker image successfully, output: " +:+ output
               +:+ ": " +:+ Error e)].
Proof.
  intros Hmake.
  assert (out (buildDockerImage (mkT w [] false)) = FailNow
          ∧ st (buildDockerImage (mkT w [] false)) = mkT w' [] true
          ∧ events (buildDockerImage (mkT w [] false)) =
              [ELog "Building Docker image for e2e tests...";
               EExec {| Args := ["make"; "VERSION=test-e2e"; "docker-build"]; Dir := "..";
                        Stdin := EmptyString |};
               EError ("expected to build Docker image successfully, output: " +:+ output
                       +:+ ": " +:+ Error e)]) as (Ho & Hs & Hev).
  { unfold buildDockerImage, run_cmd, t_Log, require_NoError, require_fail, t_FailNow,
      mbind, test_mbind, test_bind, emit, call.
    cbn. rewrite Hmake. cbn. repeat split. }
  unfold go_test, t_Run, TestE2E.
  destruct (bind_FailNow buildDockerImage
              (λ _, t_Cleanup cleanupAllTestContainers_cleanup;;
                    for_range [("Stdio", createStdioClient); ("HTTP", createHTTPClient)]
                      (λ tc, t_Run tc.1 (transportSubtest tc.1 tc.2);; mret tt))
              (mkT w [] false) Ho) as (Ho' & Hs' & Hev').
  cbn [world]. rewrite Ho', Hs', Hev', Hs, Hev. cbn. repeat split.
Qed.

(** X10.  The sweep is best effort: whatever its commands return it
    returns and leaves the failure mark and the cleanups of the test as they
    were; it runs the listing, and then one [docker stop] fed with the
    listing exactly when the listing succeeded and printed something. *)
Theorem sweep_is_best_effort (s : T W) :
  out (cleanupAllTestContainers s) = Returned tt
  ∧ failed (st (cleanupAllTestContainers s)) = failed s
  ∧ cleanups (st (cleanupAllTestContainers s)) = cleanups s
  ∧ execs (events (cleanupAllTestContainers s)) =
      match exec docker_ps_test (world s) with
      | ((output, None), _) =>
          if String.eqb output EmptyString then [docker_ps_test]
          else [docker_ps_test;
                {| Args := ["docker"; "stop"]; Dir := EmptyString; Stdin := output |}]
      | ((_, Some _), _) => [docker_ps_test]
      end.
Proof.
  destruct (cleanupAllTestContainers_harmless s) as (_ & Hf & Hc).
  split; [apply harmless_returns, cleanupAllTestContainers_harmless|].
  split; [exact Hf|]. split; [exact Hc|]. apply cleanupAllTestContainers_commands.
Qed.

(** X11.  [startHTTPContainer] runs one command, [docker run -d --rm -e
    MODE=http -p PORT:8080] on the test image, and ends by what it returns:
    an error fails the calling test; an output of at least 12 bytes gives
    its first 12 bytes as the identifier and leaves the test unmarked; a
    shorter output panics. *)
Theorem startHTTPContainer_outcomes port (s : T W) :
  execs (events (startHTTPContainer port s)) = [docker_run_http port]
  ∧ match exec (docker_run_http port) (world s) with
    | ((output, Some _), w) =>
        out (startHTTPContainer port s) = FailNow
        ∧ failed (st (startHTTPContainer port s)) = true
    | ((output, None), w) =>
        world (st (startHTTPContainer port s)) = w
        ∧ failed (st (startHTTPContainer port s)) = failed s
        ∧ out (startHTTPContainer port s) =
            if (12 <=? String.length output)%nat then Returned (substring 0 12 output)
            else Panic "runtime error: slice bounds out of range"
    end.
Proof.
  unfold docker_run_http, startHTTPContainer, run_cmd, t_Log, require_NoError, require_fail,
    t_FailNow, panic, slice_to, mbind, test_mbind, test_bind, emit, call.
  cbn -[Nat.leb]. destruct (exec _ (world s)) as [[output [e|]] w]; cbn -[Nat.leb];
    [repeat split|].
  destruct (12 <=? String.length output)%nat; cbn; repeat split.
Qed.

End Factory.

(** ** The content the checks look for *)

Section ContentChecks.
Import Go mcp e2e.
Context {W : Type} `{!World W} `{!Fixtures}.

Ltac refuse := let Hx := fresh in cbn -[Contains]; intros Hx; discriminate Hx.

Ltac run_check :=
  repeat (rewrite out_bind; cbn -[mbind Contains pretty]);
  unfold require_Contains, require_NotContains.

Ltac to_text_item response err :=
  destruct err as [e|]; [refuse|];
  destruct response as [[content iserr]|]; [|refuse];
  destruct iserr; [refuse|];
  destruct content as [|c [|c' l]]; [refuse| |refuse];
  destruct c as [text| | |]; [|refuse..].

Ltac from_text_item :=
  let r := fresh "r" in let text := fresh "text" in
  let content := fresh "content" in let iserr := fresh "iserr" in
  intros [-> (r & text & -> & Hok & Hcontent & Htext)];
  destruct r as [content iserr]; cbn in Hok, Hcontent; subst iserr content.

(** X12.  For an expected-success row typed data-source: the
    resolveProviderDocID check accepts an answer exactly when the call
    returned no error and the answer is unflagged with one text item that
    contains [Category: data-sources]; the moduleDetails check accepts it
    exactly when that one text item does not contain
    [**Category:** resources]. *)
Theorem data_source_row_checks testCase response err (s : T W) :
  TestShouldFail testCase = false →
  TestContentType testCase = CONST_TYPE_DATA_SOURCE →
  (out (resolveProviderDocID_check testCase response err s) = Returned tt
   ↔ one_text_with (λ text, Contains text "Category: data-sources" = true) response err)
  ∧ (out (moduleDetails_check testCase response err s) = Returned tt
     ↔ one_text_with (λ text, Contains text "**Category:** resources" = false) response err).
Proof.
  intros Hfail Htype. unfold resolveProviderDocID_check, moduleDetails_check, one_text_with.
  rewrite Hfail, Htype, String.eqb_refl. split; split.
  - to_text_item response err.
    run_check. destruct (Contains text "Category: data-sources") eqn:E; cbn -[Contains].
    + intros _. split; [reflexivity|]. eexists _, text. cbn. eauto.
    + intros Hx. discriminate Hx.
  - from_text_item. run_check. by rewrite Htext.
  - to_text_item response err.
    run_check. destruct (Contains text "**Category:** resources") eqn:E; cbn -[Contains].
    + intros Hx. discriminate Hx.
    + intros _. split; [reflexivity|]. eexists _, text. cbn. eauto.
  - from_text_item. run_check. by rewrite Htext.
Qed.

(** X13.  For an expected-success row the getProviderDocs check accepts an
    answer exactly when the call returned no error and the answer is
    unflagged with one text item that contains [page_title]. *)
Theorem getProviderDocs_requires_page_title testCase response err (s : T W) :
  TestShouldFail testCase = false →
  out (getProviderDocs_check testCase response err s) = Returned tt
  ↔ one_text_with (λ text, Contains text "page_title" = true) response err.
Proof.
  intros Hfail. unfold getProviderDocs_check, one_text_with. rewrite Hfail. split.
  - to_text_item response err.
    run_check. destruct (Contains text "page_title") eqn:E; cbn -[Contains].
    + intros _. split; [reflexivity|]. eexists _, text. cbn. eauto.
    + intros Hx. discriminate Hx.
  - from_text_item. run_check. by rewrite Htext.
Qed.

End ContentChecks.

(** ** The answers of the policy_details handler *)

Section PolicyAnswers.
Import Go mcp tools.
Context `{Registry}.

(** X14.  [getPolicyDetailsHandler] returns either a result and a nil
    error, or a nil result and an error, never both and never neither; a
    result it returns is unflagged and holds one text item. *)
Theorem getPolicyDetailsHandler_result_or_error request :
  (∃ text, (getPolicyDetailsHandler request).1 = (Some (NewToolResultText text), None))
  ∨ (∃ e, (getPolicyDetailsHandler request).1 = (None, Some e)).
Proof.
  unfold getPolicyDetailsHandler, RequireString, LogAndReturnError.
  destruct (Arguments request !! "terraform_policy_id") as [[ | b | n | id | l ]|];
    cbn; try (right; eexists; reflexivity).
  destruct (String.eqb id EmptyString); cbn; [right; eexists; reflexivity|].
  destruct (SendRegistryCall _ _ _) as [resp [e|]]; cbn; [right; eexists; reflexivity|].
  destruct (json_Unmarshal resp) as [details [e|]]; cbn; [right; eexists; reflexivity|].
  left. eexists. reflexivity.
Qed.

(** X15.  The registry calls of the handler: none unless the argument is a
    non-empty string, and then exactly one, a GET of the identifier followed
    by [?include=policies,policy-modules,policy-library] on API version
    v2. *)
Theorem getPolicyDetailsHandler_registry_calls request :
  List.filter is_RegistryCall (getPolicyDetailsHandler request).2 =
    match Arguments request !! "terraform_policy_id" with
    | Some (VString id) =>
        if String.eqb id EmptyString then []
        else [RegistryCall "GET" (id +:+ "?include=policies,policy-modules,policy-library")
                           "v2"]
    | _ => []
    end.
Proof.
  unfold getPolicyDetailsHandler, RequireString, LogAndReturnError.
  destruct (Arguments request !! "terraform_policy_id") as [[ | b | n | id | l ]|];
    cbn; try reflexivity.
  destruct (String.eqb id EmptyString); cbn; [reflexivity|].
  destruct (SendRegistryCall _ _ _) as [resp [e|]]; cbn; [reflexivity|].
  destruct (json_Unmarshal resp) as [details [e|]]; reflexivity.
Qed.

(** X16.  When the argument is a non-empty identifier, the registry
    answers and the answer decodes, the handler returns no error and one
    text item that starts with the heading of the identifier and holds the
    entry of every included policy and the block of every included policy
    module. *)
Theorem getPolicyDetailsHandler_answer request id resp details :
  Arguments request !! "terraform_policy_id" = Some (VString id) →
  id ≠ EmptyString →
  SendRegistryCall "GET" (id +:+ "?include=policies,policy-modules,policy-library") "v2"
    = (resp, None) →
  json_Unmarshal resp = (details, None) →
  ∃ text,
    (getPolicyDetailsHandler request).1 = (Some (NewToolResultText text), None)
    ∧ String.prefix ("## Policy details about " +:+ id) text = true
    ∧ (∀ a, In a (included_of "policies" (client.Included details)) →
            Contains text (policyEntry a) = true)
    ∧ (∀ a, In a (included_of "policy-modules" (client.Included details)) →
            Contains text (moduleBlock id a) = true).
Proof.
  intros Hlk Hne Hcall Hjson. exists (policyData id details).
  split; [|split; [|split]].
  - unfold getPolicyDetailsHandler, RequireString. rewrite Hlk.
    apply String.eqb_neq in Hne. rewrite Hne, Hcall, Hjson. reflexivity.
  - rewrite policyData_eq, <- append_assoc. apply prefix_self_app.
  - intros a. apply Contains_policyData_policy.
  - intros a. apply Contains_policyData_module.
Qed.

End PolicyAnswers.

(** ** The further theorems at concrete inputs *)

Section MoreInstances.
Import Go mcp e2e host.

(** The policy of the CIS document is listed in the text. *)
Lemma policyData_lists_included_witness :
  Contains (tools.policyData (H:=registry_serving cis_details) cis_id cis_details)
           (tools.policyEntry {| client.Name := "s3-block-public"; client.Shasum := "bb22" |})
  = true.
Proof.
  refine (proj1 (policyData_lists_included (H:=registry_serving cis_details) cis_id cis_details
                   {| client.Type_ := "policies";
                      client.Attributes :=
                        {| client.Name := "s3-block-public"; client.Shasum := "bb22" |} |}
                   _) eq_refl).
  right. left. reflexivity.
Defined.

(** The handler on the CIS identifier, against a registry that serves the
    CIS document. *)
Lemma getPolicyDetailsHandler_answer_witness :
  ∃ text,
    (tools.getPolicyDetailsHandler (H:=registry_serving cis_details)
       (request_of {[ "terraform_policy_id" := VString cis_id ]})).1
      = (Some (NewToolResultText text), None)
    ∧ String.prefix ("## Policy details about " +:+ cis_id) text = true
    ∧ (∀ a, In a (included_of "policies" (client.Included cis_details)) →
            Contains text (tools.policyEntry a) = true)
    ∧ (∀ a, In a (included_of "policy-modules" (client.Included cis_details)) →
            Contains text (tools.moduleBlock cis_id a) = true).
Proof.
  apply (getPolicyDetailsHandler_answer (H:=registry_serving cis_details)
           (request_of {[ "terraform_policy_id" := VString cis_id ]}) cis_id "{}" cis_details).
  - reflexivity.
  - discriminate.
  - reflexivity.
  - reflexivity.
Defined.


(** The suite over the pipe on the healthy host, one row per table, two of
    the rows failing. *)
Lemma runTestSuite_runs_every_row_witness :
  let c := StdioMCPClient "docker" [] ["run"; "-i"; "--rm"; testImage] in
  failed (st (runTestSuite (H:=one_case_each) (Some c) "Stdio" (mkT healthy [] false))) = true
  ∧ subtests (events (runTestSuite (H:=one_case_each) (Some c) "Stdio"
                        (mkT healthy [] false))) =
      ["Initialize"; "Stdio_resolveProviderDocID/aws_modules";
       "Stdio_getProviderDocs/empty_payload"; "Stdio_searchModules/aws_modules";
       "Stdio_moduleDetails/empty_payload"].
Proof.
  intros c. split; [vm_compute; reflexivity|].
  apply (runTestSuite_runs_every_row (H:=one_case_each) (Some c) "Stdio"
           (mkT healthy [] false)).
  vm_compute. reflexivity.
Defined.

(** A tool sub-test over the pipe when the server refuses the handshake. *)
Lemma tool_subtest_handshake_error_witness :
  let c := StdioMCPClient "docker" [] ["run"; "-i"; "--rm"; testImage] in
  let r := t_Run "Stdio_searchModules/aws_modules"
             (toolSubtest (H:=no_cases) "searchModules" searchModules_check (Some c)
                success_case)
             (mkT stdio_handshake_fails [] false) in
  out r = Returned false
  ∧ failed (st r) = true
  ∧ events r = [ERun "Stdio_searchModules/aws_modules";
                EInitialize c (initializeRequest (H:=no_cases));
                ELog ("Failed to initialize MCP client: " +:+ Error (Err "transport error: EOF"))].
Proof.
  intros c r.
  apply (tool_subtest_handshake_error (H:=no_cases) "Stdio_searchModules/aws_modules"
           "searchModules" searchModules_check c success_case
           (mkT stdio_handshake_fails [] false) None (Err "transport error: EOF")
           stdio_handshake_fails).
  reflexivity.
Defined.

(** The HTTP factory on the healthy host: the client is constructed, and
    the third health request was the ready one. *)
Lemma client_constructed_only_when_ready_witness :
  ∃ containerID k,
    out (startHTTPContainer "8080" (mkT healthy [] false)) = Returned containerID
    ∧ first_ready (polls 30 ("http://localhost:8080" +:+ "/health")
                     (world (st (startHTTPContainer "8080" (mkT healthy [] false)))))
      = Some k.
Proof.
  assert (port_of (world (mkT healthy [] false)) = "8080") as Hport
    by (vm_compute; reflexivity).
  pose proof (client_constructed_only_when_ready (mkT healthy [] false)
                "http://localhost:8080/mcp") as Hready.
  rewrite Hport in Hready. apply Hready.
  vm_compute. do 11 right. left. reflexivity.
Defined.

(** The run on a machine where [make] cannot be run. *)
Lemma build_failure_aborts_run_witness :
  out (go_test (World0:=no_commands) (H:=no_cases) tt) = Returned false
  ∧ subtests (events (go_test (World0:=no_commands) (H:=no_cases) tt)) = ["TestE2E"]
  ∧ execs (events (go_test (World0:=no_commands) (H:=no_cases) tt)) = [make_docker_build].
Proof.
  destruct (build_failure_aborts_run (World0:=no_commands) (H:=no_cases) tt EmptyString
              (Err "exit status 2") tt eq_refl) as (Ho & _ & Hev).
  split; [exact Ho|]. rewrite Hev. split; reflexivity.
Defined.

(** A data-source row and an answer that names its category. *)
Lemma data_source_row_checks_witness :
  out (resolveProviderDocID_check (H:=no_cases) data_source_case
         (Some (NewToolResultText "Category: data-sources")) None (mkT healthy [] false))
  = Returned tt.
Proof.
  apply (proj1 (data_source_row_checks (H:=no_cases) data_source_case
                  (Some (NewToolResultText "Category: data-sources")) None
                  (mkT healthy [] false) eq_refl eq_refl)).
  split; [reflexivity|]. eexists _, _. repeat split.
Defined.

(** An answer without a page title is not accepted. *)
Lemma getProviderDocs_requires_page_title_witness :
  out (getProviderDocs_check success_case (Some (NewToolResultText "# aws_ami")) None
         (mkT healthy [] false)) ≠ Returned tt.
Proof.
  intros Hacc.
  apply (getProviderDocs_requires_page_title success_case
           (Some (NewToolResultText "# aws_ami")) None (mkT healthy [] false) eq_refl) in Hacc.
  destruct Hacc as (_ & r & text & [= <-] & _ & [= <-] & Hc). discriminate Hc.
Defined.

End MoreInstances.
